(** * virtual-alexa: the SkillInteractor, its session and audio-player state

    The repository carries two revisions of the interactor:
    - [src/src/SkillInteractor.ts]: the concrete class that calls
      [ModuleInvoker.invoke] (module [SkillInteractor] below);
    - [src/unnamed/part_000]: the abstract class with the [invoke] method, the
      request filter and [async callSkill] (module [AbstractSkillInteractor]).

    Both are embedded, function by function, over one model of JavaScript
    values, of the skill context and of the effects the code performs. *)

From Stdlib Require Import String Ascii List Bool ZArith Lia DecimalString.
Import ListNotations.
Local Open Scope string_scope.
Local Open Scope bool_scope.

(* ================================================================== *)
(** ** JavaScript values ([any]) *)

(** Objects are association lists in property order; a read takes the first
    binding of a key. *)
#[warnings="-register-all"]
Inductive value : Type :=
| VUndefined
| VNull
| VBool (b : bool)
| VNum (n : Z)
| VBigInt (n : Z)
| VStr (s : string)
| VObj (fields : list (string * value)).

Inductive Err : Type :=
| TypeError (msg : string)
| Error (msg : string).

Inductive Result (A : Type) : Type :=
| Ok (a : A)
| Throw (e : Err).
Arguments Ok {A} a.
Arguments Throw {A} e.

Definition string_of_nat (n : nat) : string :=
  NilEmpty.string_of_uint (Nat.to_uint n).

Definition string_of_Z (z : Z) : string :=
  NilZero.string_of_int (Z.to_int z).

(** [x !== undefined && x !== null] is [negb (nullish x)]. *)
Definition nullish (v : value) : bool :=
  match v with
  | VUndefined | VNull => true
  | _ => false
  end.

(** ToBoolean *)
Definition truthy (v : value) : bool :=
  match v with
  | VUndefined | VNull => false
  | VBool b => b
  | VNum n => negb (Z.eqb n 0)
  | VBigInt n => negb (Z.eqb n 0)
  | VStr s => negb (String.eqb s "")
  | VObj _ => true
  end.

(** ToString, as used by [+] with a string operand.  Numbers are the
    integers, printed in decimal. *)
Definition ToString (v : value) : string :=
  match v with
  | VUndefined => "undefined"
  | VNull => "null"
  | VBool true => "true"
  | VBool false => "false"
  | VNum n => string_of_Z n
  | VBigInt n => string_of_Z n
  | VStr s => s
  | VObj _ => "[object Object]"
  end.

Fixpoint lookup (k : string) (fields : list (string * value)) : value :=
  match fields with
  | [] => VUndefined
  | (k', v) :: rest => if String.eqb k k' then v else lookup k rest
  end.

Fixpoint chars_from (i : nat) (s : string) : list (string * value) :=
  match s with
  | EmptyString => []
  | String ch s' => (string_of_nat i, VStr (String ch "")) :: chars_from (S i) s'
  end.

(** The own enumerable properties of a value: the fields of an object, the
    indexed characters of a string, nothing for the other primitives. *)
Definition entries (v : value) : list (string * value) :=
  match v with
  | VObj fields => fields
  | VStr s => chars_from 0 s
  | _ => []
  end.

(** [Object.keys(v)] *)
Definition Object_keys (v : value) : list string := map fst (entries v).

(** [v[k]] and [v.k]: reading a property of [undefined] or [null] is a
    TypeError; a missing property reads as [undefined]. *)
Definition get (v : value) (k : string) : Result value :=
  match v with
  | VUndefined =>
      Throw (TypeError ("Cannot read property '" ++ k ++ "' of undefined"))
  | VNull =>
      Throw (TypeError ("Cannot read property '" ++ k ++ "' of null"))
  | VStr s =>
      if String.eqb k "length" then Ok (VNum (Z.of_nat (String.length s)))
      else Ok (lookup k (chars_from 0 s))
  | VObj fields => Ok (lookup k fields)
  | VBool _ | VNum _ | VBigInt _ => Ok VUndefined
  end.

(* ================================================================== *)
(** ** Session, audio player and skill context

    [SkillContext.ts], [SkillSession.ts] and [AudioPlayer.ts] are not among
    the sources; the interactor only calls their methods. *)

(** Modelled from the spec: the Audio Player class ([AudioPlayer.ts] is
    missing).  State is IDLE, PLAYING or SUSPENDED; the current item reference
    and offset are defined only when the state is not IDLE. *)
Inductive AudioPlayerActivity : Type := IDLE | PLAYING | SUSPENDED.

Record AudioItem : Type := mkAudioItem {
  itemToken : string;
  offsetInMilliseconds : Z
}.

Record AudioPlayer : Type := mkAudioPlayer {
  activity : AudioPlayerActivity;
  playing : option AudioItem
}.

(** Modelled from the spec: [AudioPlayer.isPlaying()] is true iff the state is
    PLAYING. *)
Definition isPlaying (p : AudioPlayer) : bool :=
  match activity p with
  | PLAYING => true
  | _ => false
  end.

(** Modelled from the spec: [AudioPlayer.suspend()] leaves PLAYING for
    SUSPENDED and is a no-op from any other state. *)
Definition suspend (p : AudioPlayer) : AudioPlayer :=
  match activity p with
  | PLAYING => {| activity := SUSPENDED; playing := playing p |}
  | _ => p
  end.

(** Modelled from the spec: the Session class ([SkillSession.ts] is missing):
    identifier, attribute mapping, is-new flag, is-active flag. *)
Record Session : Type := mkSession {
  id : nat;
  attributes : value;
  isNew : bool;
  isActive : bool
}.

(** Modelled from the spec: [SkillSession.used()], the session has completed a
    round trip. *)
Definition used (s : Session) : Session :=
  {| id := id s; attributes := attributes s; isNew := false;
     isActive := isActive s |}.

(** Modelled from the spec: [SkillSession.updateAttributes(a)], the
    attribute-update policy.  The returned mapping replaces the session's; an
    absent ([null]) mapping clears it; when the response omits the field
    ([undefined]) the prior mapping is retained. *)
Definition updateAttributes (sessionAttributes : value) (s : Session) : Session :=
  match sessionAttributes with
  | VUndefined => s
  | VNull =>
      {| id := id s; attributes := VObj []; isNew := isNew s;
         isActive := isActive s |}
  | a =>
      {| id := id s; attributes := a; isNew := isNew s;
         isActive := isActive s |}
  end.

(** Modelled from the spec: the Skill Context class ([SkillContext.ts] is
    missing).  It owns one Session and the Audio Player and holds the
    application identifier; [sessionsCreated] numbers the sessions so that
    each new one gets an identifier of its own.  The interactor asks
    [audioPlayerEnabled()] before every use of [audioPlayer()]: the player is
    there exactly when audio player support is enabled.  The interaction model
    is immutable and lives with the collaborators below. *)
Record SkillContext : Type := mkSkillContext {
  session : Session;
  audioPlayer : option AudioPlayer;
  applicationID : option string;
  sessionsCreated : nat
}.

Definition with_session (s : Session) (c : SkillContext) : SkillContext :=
  {| session := s; audioPlayer := audioPlayer c;
     applicationID := applicationID c;
     sessionsCreated := sessionsCreated c |}.

Definition with_audioPlayer (p : option AudioPlayer) (c : SkillContext)
    : SkillContext :=
  {| session := session c; audioPlayer := p;
     applicationID := applicationID c;
     sessionsCreated := sessionsCreated c |}.

(** Modelled from the spec: [SkillContext.audioPlayerEnabled()]. *)
Definition audioPlayerEnabled (c : SkillContext) : bool :=
  match audioPlayer c with
  | Some _ => true
  | None => false
  end.

(** The context reports a player that is PLAYING. *)
Definition playingNow (c : SkillContext) : bool :=
  match audioPlayer c with
  | Some p => isPlaying p
  | None => false
  end.

(** Modelled from the spec: [SkillContext.activeSession()]. *)
Definition activeSession (c : SkillContext) : bool := isActive (session c).

(** Modelled from the spec: [SkillContext.newSession()], a brand-new Session:
    new identifier, empty attributes, new and active. *)
Definition newSession (c : SkillContext) : SkillContext :=
  {| session := {| id := sessionsCreated c; attributes := VObj [];
                   isNew := true; isActive := true |};
     audioPlayer := audioPlayer c;
     applicationID := applicationID c;
     sessionsCreated := S (sessionsCreated c) |}.

(** Modelled from the spec: [SkillContext.endSession()], the session is
    terminated. *)
Definition endSession (c : SkillContext) : SkillContext :=
  with_session {| id := id (session c); attributes := attributes (session c);
                  isNew := isNew (session c); isActive := false |} c.

(** Modelled from the spec: [new SkillContext(model, audioPlayer,
    applicationID)]; no session exists before the first [newSession()]. *)
Definition new_SkillContext (player : option AudioPlayer)
    (appID : option string) : SkillContext :=
  {| session := {| id := 0; attributes := VObj []; isNew := false;
                   isActive := false |};
     audioPlayer := player;
     applicationID := appID;
     sessionsCreated := 0 |}.

(** Modelled from the spec: [new AudioPlayer(interactor)], an idle player. *)
Definition new_AudioPlayer : AudioPlayer :=
  {| activity := IDLE; playing := None |}.

(** [SessionEndedReason] of [SkillRequest.ts]. *)
Inductive SessionEndedReason : Type :=
| ERROR
| EXCEEDED_MAX_REPROMPTS
| USER_INITIATED.

Definition isERROR (r : SessionEndedReason) : bool :=
  match r with
  | ERROR => true
  | _ => false
  end.

Inductive RequestType : Type :=
| LaunchRequest
| IntentRequest
| SessionEndedRequest.

(* ================================================================== *)
(** ** Effects

    A method of the interactor runs on the skill context; it either returns
    or throws, and it leaves a trace of events in program order: what it wrote
    to the console and the calls it made across the boundary to its
    collaborators. *)

Inductive Event : Type :=
| ConsoleWarn (msg : string)
| ConsoleError (msg : string)
| ConsoleLog (msg : string)
(** [audioPlayer().suspend()] was called *)
| PlayerSuspend
(** [new SkillRequest(skillContext)] followed by the method that gives the
    request its type, on the context as it is at that moment *)
| BuildRequest (t : RequestType) (c : SkillContext)
(** the collaborator was invoked with [requestJSON], for a request whose
    [requiresSession()] is [needsSession], on the context as it is at that
    moment *)
| Dispatch (needsSession : bool) (c : SkillContext) (requestJSON : value).

Definition M (A : Type) : Type :=
  SkillContext -> Result A * SkillContext * list Event.

Definition ret {A : Type} (a : A) : M A := fun c => (Ok a, c, []).

Definition throw {A : Type} (e : Err) : M A := fun c => (Throw e, c, []).

Definition bind {A B : Type} (m : M A) (f : A -> M B) : M B :=
  fun c =>
    match m c with
    | (Ok a, c1, t1) => let '(r, c2, t2) := f a c1 in (r, c2, (t1 ++ t2)%list)
    | (Throw e, c1, t1) => (Throw e, c1, t1)
    end.

Declare Scope js_scope.
Delimit Scope js_scope with js.
Notation "x <- m ;; k" := (bind m (fun x => k))
  (at level 100, m at next level, right associativity) : js_scope.
Notation "m ;; k" := (bind m (fun _ => k))
  (at level 100, right associativity) : js_scope.
Local Open Scope js_scope.

Definition emit (e : Event) : M unit := fun c => (Ok tt, c, [e]).

Definition read {A : Type} (f : SkillContext -> A) : M A :=
  fun c => (Ok (f c), c, []).

Definition modify (f : SkillContext -> SkillContext) : M unit :=
  fun c => (Ok tt, f c, []).

(** A call into a collaborator that reads the context and may throw. *)
Definition call {A : Type} (f : SkillContext -> Result A) : M A :=
  fun c => (f c, c, []).

Definition when (b : bool) (m : M unit) : M unit := if b then m else ret tt.

(** [try { m } catch (e) { h e }] *)
Definition try_catch {A : Type} (m : M A) (h : Err -> M A) : M A :=
  fun c =>
    match m c with
    | (Throw e, c1, t1) => let '(r, c2, t2) := h e c1 in (r, c2, (t1 ++ t2)%list)
    | done => done
    end.

Definition getM (v : value) (k : string) : M value := call (fun _ => get v k).

(** [skillContext.audioPlayer().isPlaying()] *)
Definition audioPlayer_isPlaying : M bool :=
  fun c =>
    match audioPlayer c with
    | Some p => (Ok (isPlaying p), c, [])
    | None =>
        (Throw (TypeError "Cannot read property 'isPlaying' of null"), c, [])
    end.

(** [skillContext.audioPlayer().suspend()], as the state change of the
    player.  The player is given the interactor when it is constructed; what
    it may send through it on its own is not modelled. *)
Definition audioPlayer_suspend : M unit :=
  fun c =>
    match audioPlayer c with
    | Some p => (Ok tt, with_audioPlayer (Some (suspend p)) c, [PlayerSuspend])
    | None =>
        (Throw (TypeError "Cannot read property 'suspend' of null"), c, [])
    end.

Definition console_warn (msg : string) : M unit := emit (ConsoleWarn msg).
Definition console_error (msg : string) : M unit := emit (ConsoleError msg).
Definition console_log (msg : string) : M unit := emit (ConsoleLog msg).

(** *** Promises

    The only suspension point is the invocation boundary.  The collaborator's
    promise settles later, with a response payload or with a failure; until
    then the rest of the method waits as a continuation that will run on the
    context as it is when the result arrives. *)

Inductive Settlement : Type :=
| Resolved (result : value)
| RejectedBy (e : Err).

(** The promise a method returns.  [Rejected e]: already rejected when it is
    returned.  [Awaiting requestJSON k]: the collaborator has been invoked
    with [requestJSON]; when its promise settles with [s], [k s] runs, and the
    returned promise is fulfilled with its value or rejected with what it
    throws. *)
Inductive Promise : Type :=
| Rejected (e : Err)
| Awaiting (requestJSON : value) (k : Settlement -> M value).

(** [p.then(f)]: [f] runs once [p] is fulfilled, and not at all when [p] is
    rejected. *)
Definition then_ (p : Promise) (f : value -> M value) : Promise :=
  match p with
  | Rejected e => Rejected e
  | Awaiting requestJSON k => Awaiting requestJSON (fun s => v <- k s ;; f v)
  end.

(** An [async] function never throws to its caller: a fault in the part that
    runs before the first [await] rejects the promise it returns. *)
Definition async (m : M Promise) : M Promise :=
  try_catch m (fun e => ret (Rejected e)).

(** [RequestFilter] of [VirtualAlexa.ts]: a function that receives the
    envelope and mutates it in place.  The pair is the envelope as the call
    leaves it and the value the call returns. *)
Definition RequestFilter : Type := value -> value * value.

(* ================================================================== *)
(** ** Collaborators

    The classes the interactor imports and whose sources are missing, taken
    as parameters with the signatures the interactor uses.  A [SkillRequest]
    keeps a reference to the skill context, so each of its methods sees the
    context as it is when the method is called. *)

Class Collaborators : Type := mkCollaborators {
  (** [Utterance.ts], [InteractionModel.ts] *)
  Utterance : Type;
  new_Utterance : string -> Utterance;
  matched : Utterance -> bool;
  intent : Utterance -> string;
  Utterance_toJSON : Utterance -> value;
  Utterance_toString : Utterance -> string;
  defaultUtterance_phrase : string;
  (** [SkillRequest.ts] *)
  SkillRequest : Type;
  launchRequest : SkillContext -> Result SkillRequest;
  intentRequest : SkillContext -> string -> Result SkillRequest;
  withSlot : SkillContext -> SkillRequest -> string -> value -> Result SkillRequest;
  sessionEndedRequest :
    SkillContext -> SessionEndedReason -> value -> Result SkillRequest;
  requiresSession : SkillRequest -> bool;
  toJSON : SkillContext -> SkillRequest -> Result value;
  (** [JSON.stringify(v, null, 2)]: the text that [+] appends, or the
      TypeError it throws on a value it cannot serialize (a BigInt; an object
      that refers to itself, which [value] cannot hold) *)
  JSON_stringify : value -> Result string
}.

(** [this.invoke(requestJSON)] / [ModuleInvoker.invoke(handler, requestJSON)]:
    the request leaves the core; [k] is what the caller does with the
    settlement of the collaborator's promise. *)
Definition invoke (needsSession : bool) (requestJSON : value)
    (k : Settlement -> M value) : M Promise :=
  fun c => (Ok (Awaiting requestJSON k), c, [Dispatch needsSession c requestJSON]).

(** The constructor of both revisions: a context with a fresh audio player,
    then [skillContext.newSession()]. *)
Definition new_SkillInteractor (appID : option string) : SkillContext :=
  newSession (new_SkillContext (Some new_AudioPlayer) appID).

(** The public operations, as a caller issues them. *)
Inductive Operation : Type :=
| Spoken (utteranceString : string)
| Launched
| Intended (intentName : string) (slots : value)
| SessionEnded (sessionEndedReason : SessionEndedReason) (errorData : value).

(* ================================================================== *)
(** ** [src/src/SkillInteractor.ts] *)

Module SkillInteractor.
Section Interactor.
Context {E : Collaborators}.

(** The callback given to [.then] in [callSkill]; it returns nothing. *)
Definition callSkill_then (result : value) : M value :=
  active <- read activeSession ;;
  (if active then
     modify (fun c => with_session (used (session c)) c) ;;
     flag <- (if truthy result then getM result "shouldEndSession"
              else ret result) ;;
     if truthy flag then modify endSession
     else
       (sessionAttributes <- getM result "sessionAttributes" ;;
        modify (fun c =>
          with_session (updateAttributes sessionAttributes (session c)) c))
   else ret tt) ;;
  ret VUndefined.

(** [ModuleInvoker.invoke(...).then(callback)]: a failure of the
    collaborator passes through. *)
Definition invoke_then (s : Settlement) : M value :=
  match s with
  | Resolved result => callSkill_then result
  | RejectedBy e => throw e
  end.

Definition callSkill (serviceRequest : SkillRequest) : M Promise :=
  noSession <- read (fun c =>
    requiresSession serviceRequest && negb (activeSession c)) ;;
  when noSession (modify newSession) ;;
  requestJSON <- call (fun c => toJSON c serviceRequest) ;;
  request <- getM requestJSON "request" ;;
  ty <- getM request "type" ;;
  console_log ("CALLING: " ++ ToString ty) ;;
  invoke (requiresSession serviceRequest) requestJSON invoke_then.

(** The loop [for (const slotName of Object.keys(slots))]. *)
Fixpoint withSlots (slots : value) (slotNames : list string)
    (serviceRequest : SkillRequest) : M SkillRequest :=
  match slotNames with
  | [] => ret serviceRequest
  | slotName :: rest =>
      slotValue <- getM slots slotName ;;
      serviceRequest <- call (fun c =>
        withSlot c serviceRequest slotName slotValue) ;;
      withSlots slots rest serviceRequest
  end.

Definition callSkillWithIntent (intentName : string) (slots : value)
    : M Promise :=
  enabled <- read audioPlayerEnabled ;;
  isPlaying_ <- (if enabled then audioPlayer_isPlaying else ret false) ;;
  when isPlaying_ audioPlayer_suspend ;;
  skillContext <- read (fun c => c) ;;
  emit (BuildRequest IntentRequest skillContext) ;;
  serviceRequest <- call (fun c => intentRequest c intentName) ;;
  serviceRequest <-
    (if negb (nullish slots)
     then withSlots slots (Object_keys slots) serviceRequest
     else ret serviceRequest) ;;
  callSkill serviceRequest.

Definition spoken (utteranceString : string) : M Promise :=
  let utterance := new_Utterance utteranceString in
  utterance <-
    (if negb (matched utterance) then
       let defaultPhrase := defaultUtterance_phrase in
       let utterance := new_Utterance defaultPhrase in
       console_warn ("No intentName matches utterance: "
                     ++ Utterance_toString utterance
                     ++ ". Using fallback utterance: " ++ defaultPhrase) ;;
       ret utterance
     else ret utterance) ;;
  callSkillWithIntent (intent utterance) (Utterance_toJSON utterance).

Definition launched : M Promise :=
  skillContext <- read (fun c => c) ;;
  emit (BuildRequest LaunchRequest skillContext) ;;
  serviceRequest <- call launchRequest ;;
  callSkill serviceRequest.

Definition sessionEnded (sessionEndedReason : SessionEndedReason)
    (errorData : value) : M Promise :=
  when (isERROR sessionEndedReason)
    (text <- call (fun _ => JSON_stringify errorData) ;;
     console_error ("SessionEndedRequest:" ++ String "010" "" ++ text)) ;;
  skillContext <- read (fun c => c) ;;
  emit (BuildRequest SessionEndedRequest skillContext) ;;
  serviceRequest <- call (fun c =>
    sessionEndedRequest c sessionEndedReason errorData) ;;
  promise <- callSkill serviceRequest ;;
  modify endSession ;;
  ret promise.

Definition intended (intentName : string) (slots : value) : M Promise :=
  callSkillWithIntent intentName slots.

Definition perform (op : Operation) : M Promise :=
  match op with
  | Spoken utteranceString => spoken utteranceString
  | Launched => launched
  | Intended intentName slots => intended intentName slots
  | SessionEnded sessionEndedReason errorData =>
      sessionEnded sessionEndedReason errorData
  end.

End Interactor.
End SkillInteractor.

(* ================================================================== *)
(** ** [src/unnamed/part_000] *)

Module AbstractSkillInteractor.
Section Interactor.
Context {E : Collaborators}.

(** The body of [callSkill] after [await this.invoke(requestJSON)]. *)
Definition callSkill_resume (result : value) : M value :=
  active <- read activeSession ;;
  (if active then
     modify (fun c => with_session (used (session c)) c) ;;
     flag <- (if truthy result then
                response <- getM result "response" ;;
                if truthy response then
                  response <- getM result "response" ;;
                  getM response "shouldEndSession"
                else ret response
              else ret result) ;;
     if truthy flag then modify endSession
     else
       (sessionAttributes <- getM result "sessionAttributes" ;;
        modify (fun c =>
          with_session (updateAttributes sessionAttributes (session c)) c))
   else ret tt) ;;
  ret result.

(** [await this.invoke(requestJSON)]: a failure of the collaborator is
    thrown at the [await]. *)
Definition await_invoke (s : Settlement) : M value :=
  match s with
  | Resolved result => callSkill_resume result
  | RejectedBy e => throw e
  end.

Definition callSkill (serviceRequest : SkillRequest)
    (requestFilter : option RequestFilter) : M Promise :=
  async
    (noSession <- read (fun c =>
       requiresSession serviceRequest && negb (activeSession c)) ;;
     when noSession (modify newSession) ;;
     requestJSON <- call (fun c => toJSON c serviceRequest) ;;
     requestJSON <-
       ret (match requestFilter with
            | Some filter => fst (filter requestJSON)
            | None => requestJSON
            end) ;;
     request <- getM requestJSON "request" ;;
     ty <- getM request "type" ;;
     console_log ("CALLING: " ++ ToString ty) ;;
     invoke (requiresSession serviceRequest) requestJSON await_invoke).

(** The loop [for (const slotName of Object.keys(slots))]. *)
Fixpoint withSlots (slots : value) (slotNames : list string)
    (serviceRequest : SkillRequest) : M SkillRequest :=
  match slotNames with
  | [] => ret serviceRequest
  | slotName :: rest =>
      slotValue <- getM slots slotName ;;
      serviceRequest <- call (fun c =>
        withSlot c serviceRequest slotName slotValue) ;;
      withSlots slots rest serviceRequest
  end.

Definition callSkillWithIntent (intentName : string) (slots : value)
    (requestFilter : option RequestFilter) : M Promise :=
  enabled <- read audioPlayerEnabled ;;
  isPlaying_ <- (if enabled then audioPlayer_isPlaying else ret false) ;;
  when isPlaying_ audioPlayer_suspend ;;
  skillContext <- read (fun c => c) ;;
  emit (BuildRequest IntentRequest skillContext) ;;
  serviceRequest <- call (fun c => intentRequest c intentName) ;;
  serviceRequest <-
    (if negb (nullish slots)
     then withSlots slots (Object_keys slots) serviceRequest
     else ret serviceRequest) ;;
  callSkill serviceRequest requestFilter.

Definition spoken (utteranceString : string)
    (requestFilter : option RequestFilter) : M Promise :=
  let utterance := new_Utterance utteranceString in
  utterance <-
    (if negb (matched utterance) then
       let defaultPhrase := defaultUtterance_phrase in
       let utterance := new_Utterance defaultPhrase in
       console_warn ("No intentName matches utterance: "
                     ++ Utterance_toString utterance
                     ++ ". Using fallback utterance: " ++ defaultPhrase) ;;
       ret utterance
     else ret utterance) ;;
  callSkillWithIntent (intent utterance) (Utterance_toJSON utterance)
    requestFilter.

Definition launched (requestFilter : option RequestFilter) : M Promise :=
  skillContext <- read (fun c => c) ;;
  emit (BuildRequest LaunchRequest skillContext) ;;
  serviceRequest <- call launchRequest ;;
  callSkill serviceRequest requestFilter.

(** The callback [() => { this.context().endSession(); }]. *)
Definition endSession_then (_ : value) : M value :=
  modify endSession ;; ret VUndefined.

Definition sessionEnded (sessionEndedReason : SessionEndedReason)
    (errorData : value) (requestFilter : option RequestFilter) : M Promise :=
  when (isERROR sessionEndedReason)
    (text <- call (fun _ => JSON_stringify errorData) ;;
     console_error ("SessionEndedRequest:" ++ String "010" "" ++ text)) ;;
  skillContext <- read (fun c => c) ;;
  emit (BuildRequest SessionEndedRequest skillContext) ;;
  serviceRequest <- call (fun c =>
    sessionEndedRequest c sessionEndedReason errorData) ;;
  promise <- callSkill serviceRequest requestFilter ;;
  ret (then_ promise endSession_then).

Definition intended (intentName : string) (slots : value)
    (requestFilter : option RequestFilter) : M Promise :=
  try_catch (callSkillWithIntent intentName slots requestFilter)
    (fun e => ret (Rejected e)).

Definition perform (op : Operation) (requestFilter : option RequestFilter)
    : M Promise :=
  match op with
  | Spoken utteranceString => spoken utteranceString requestFilter
  | Launched => launched requestFilter
  | Intended intentName slots => intended intentName slots requestFilter
  | SessionEnded sessionEndedReason errorData =>
      sessionEnded sessionEndedReason errorData requestFilter
  end.

End Interactor.
End AbstractSkillInteractor.

(* ================================================================== *)
(** ** Observing a run *)

Definition result_of {A : Type} (run : Result A * SkillContext * list Event)
    : Result A := fst (fst run).

Definition ctx_of {A : Type} (run : Result A * SkillContext * list Event)
    : SkillContext := snd (fst run).

Definition events_of {A : Type} (run : Result A * SkillContext * list Event)
    : list Event := snd run.

Definition is_warning (e : Event) : bool :=
  match e with
  | ConsoleWarn _ => true
  | _ => false
  end.

Definition is_suspend (e : Event) : bool :=
  match e with
  | PlayerSuspend => true
  | _ => false
  end.

Definition is_build (e : Event) : bool :=
  match e with
  | BuildRequest _ _ => true
  | _ => false
  end.

Definition is_console_error (e : Event) : bool :=
  match e with
  | ConsoleError _ => true
  | _ => false
  end.

(** What [callSkill] itself leaves in the trace: its console line and the
    dispatch. *)
Definition is_log_or_dispatch (e : Event) : bool :=
  match e with
  | ConsoleLog _ | Dispatch _ _ _ => true
  | _ => false
  end.

Definition warnings (evs : list Event) : list Event := filter is_warning evs.

Definition suspensions (evs : list Event) : nat :=
  List.length (filter is_suspend evs).

(** A dispatch respects the session invariant when a request that requires a
    session leaves on a context whose session is active. *)
Definition dispatch_ok (e : Event) : bool :=
  match e with
  | Dispatch true c _ => activeSession c
  | _ => true
  end.

Definition awaiting (r : Result Promise) : bool :=
  match r with
  | Ok (Awaiting _ _) => true
  | _ => false
  end.

(** A property read that cannot fail because its receiver is known not to be
    [undefined] or [null]. *)
Definition prop (v : value) (k : string) : value :=
  match get v k with
  | Ok x => x
  | Throw _ => VUndefined
  end.

(** The envelope after the optional request filter has run on it. *)
Definition applyFilter (requestFilter : option RequestFilter)
    (requestJSON : value) : value :=
  match requestFilter with
  | Some filter => fst (filter requestJSON)
  | None => requestJSON
  end.

(** What an intent-triggered call does to the context before it builds the
    request. *)
Definition suspendIfPlaying (c : SkillContext) : SkillContext :=
  match audioPlayer c with
  | Some p => if isPlaying p then with_audioPlayer (Some (suspend p)) c else c
  | None => c
  end.

(** What [callSkill] does to the context before it serializes. *)
Definition ensureSession (needsSession : bool) (c : SkillContext)
    : SkillContext :=
  if needsSession && negb (activeSession c) then newSession c else c.

(** Neither a suspension of the player nor the building of a request. *)
Definition is_other (e : Event) : bool := negb (is_suspend e || is_build e).

(** The trace of an intent-triggered call started on [c]: the one intent
    request is built on [suspendIfPlaying c], a context that reports no
    playing player, and when [c] reported one, the suspension comes right
    before the build. *)
Definition suspends_before_build (c : SkillContext) (evs : list Event) : Prop :=
  exists (pre post : list Event),
    evs = (pre ++ (if playingNow c then [PlayerSuspend] else [])
               ++ BuildRequest IntentRequest (suspendIfPlaying c) :: post)%list
    /\ playingNow (suspendIfPlaying c) = false
    /\ forallb is_other pre = true
    /\ forallb is_other post = true.

(** The effect of an intent-triggered call started on [c] on the audio
    player: one [suspend()] when [c] reported a playing player, nothing
    otherwise, and nothing when the result of the invocation arrives. *)
Definition audioPlayer_frame (c : SkillContext)
    (run : Result Promise * SkillContext * list Event) : Prop :=
  audioPlayer (ctx_of run) =
    (if playingNow c then option_map suspend (audioPlayer c)
     else audioPlayer c)
  /\ suspensions (events_of run) = (if playingNow c then 1 else 0)
  /\ match result_of run with
     | Ok (Awaiting _ k) =>
         forall (s : Settlement) (c2 : SkillContext),
           audioPlayer (ctx_of (k s c2)) = audioPlayer c2
           /\ suspensions (events_of (k s c2)) = 0
     | _ => True
     end.

(** The utterance [spoken] falls back to, and the warning it then logs. *)
Definition fallbackUtterance {E : Collaborators} : Utterance :=
  new_Utterance defaultUtterance_phrase.

Definition fallbackWarning {E : Collaborators} : string :=
  "No intentName matches utterance: "
  ++ Utterance_toString fallbackUtterance
  ++ ". Using fallback utterance: " ++ defaultUtterance_phrase.

(** What [sessionEnded] leaves in the trace before it dispatches, started on
    [c]: the diagnostic when the reason is ERROR, then the building of the
    request. *)
Definition stringified {E : Collaborators} (errorData : value) : string :=
  match JSON_stringify errorData with
  | Ok text => text
  | Throw _ => EmptyString
  end.

Definition sessionEndedDiagnostic {E : Collaborators} (errorData : value)
    : string :=
  "SessionEndedRequest:" ++ String "010" "" ++ stringified errorData.

(** The fault that stops [sessionEnded] before it builds anything: the one
    [JSON.stringify] throws on the error payload, when the reason is ERROR. *)
Definition diagnostic_fault {E : Collaborators}
    (sessionEndedReason : SessionEndedReason) (errorData : value)
    : option Err :=
  if isERROR sessionEndedReason then
    match JSON_stringify errorData with
    | Throw e => Some e
    | Ok _ => None
    end
  else None.

Definition sessionEnded_pre {E : Collaborators}
    (sessionEndedReason : SessionEndedReason) (errorData : value)
    (c : SkillContext) : list Event :=
  ((if isERROR sessionEndedReason
    then [ConsoleError (sessionEndedDiagnostic errorData)] else [])
   ++ [BuildRequest SessionEndedRequest c])%list.

(** A run keeps the session invariant: every request that requires a session
    is dispatched on a context whose session is active, and nothing is
    dispatched when the result of the invocation arrives. *)
Definition dispatches_with_session
    (run : Result Promise * SkillContext * list Event) : Prop :=
  forallb dispatch_ok (events_of run) = true
  /\ match result_of run with
     | Ok (Awaiting _ k) =>
         forall (s : Settlement) (c2 : SkillContext), events_of (k s c2) = []
     | _ => True
     end.

(** [callSkill], started on [c] for [serviceRequest], creates the session
    when one is required and none is active, serializes on the context so
    obtained, and dispatches what it serialized from there. *)
Definition creates_session_then_dispatches {E : Collaborators}
    (serviceRequest : SkillRequest) (requestFilter : option RequestFilter)
    (c : SkillContext) (run : Result Promise * SkillContext * list Event)
    : Prop :=
  let c1 := if requiresSession serviceRequest && negb (activeSession c)
            then newSession c else c in
  ctx_of run = c1
  /\ match result_of run with
     | Ok (Awaiting requestJSON _) =>
         exists json,
           toJSON c1 serviceRequest = Ok json
           /\ requestJSON = applyFilter requestFilter json
           /\ In (Dispatch (requiresSession serviceRequest) c1 requestJSON)
                (events_of run)
     | _ => events_of run = []
     end.

(** [result && result.shouldEndSession], as a condition. *)
Definition endFlag_toplevel (result : value) : bool :=
  truthy result && truthy (prop result "shouldEndSession").

(** [result && result.response && result.response.shouldEndSession], as a
    condition. *)
Definition endFlag_in_response (result : value) : bool :=
  truthy result && truthy (prop result "response")
  && truthy (prop (prop result "response") "shouldEndSession").

(** The session update after a round trip, on the context [c2] the result
    arrives on: nothing when no session is active; otherwise the session is
    marked used, and then terminated when [ends], else its attributes are
    updated from [sessionAttributes]. *)
Definition afterRoundTrip (ends : bool) (sessionAttributes : value)
    (c2 : SkillContext) : SkillContext :=
  if activeSession c2 then
    let c3 := with_session (used (session c2)) c2 in
    if ends then endSession c3
    else with_session (updateAttributes sessionAttributes (session c3)) c3
  else c2.

(** The promise of a [sessionEnded] that terminates the session once the
    round trip has completed: when the promise is returned the context is
    still the one the request was dispatched on; a payload other than
    [undefined] and [null] ends the session whatever it says; a failed
    invocation leaves the context alone. *)
Definition ends_once_settled
    (run : Result Promise * SkillContext * list Event) : Prop :=
  match result_of run with
  | Ok (Awaiting requestJSON k) =>
      (exists b, In (Dispatch b (ctx_of run) requestJSON) (events_of run))
      /\ (forall (result : value) (c2 : SkillContext),
            nullish result = false ->
            result_of (k (Resolved result) c2) = Ok VUndefined
            /\ activeSession (ctx_of (k (Resolved result) c2)) = false)
      /\ (forall (e : Err) (c2 : SkillContext),
            k (RejectedBy e) c2 = (Throw e, c2, []))
  | _ => True
  end.

(** The promise of a [sessionEnded] that terminates the session right after
    the dispatch: when the promise is returned the session of the context the
    request was dispatched on has already been terminated, and the result of
    the invocation finds nothing left to update. *)
Definition ends_right_away
    (run : Result Promise * SkillContext * list Event) : Prop :=
  match result_of run with
  | Ok (Awaiting requestJSON k) =>
      (exists b c1,
         In (Dispatch b c1 requestJSON) (events_of run)
         /\ ctx_of run = endSession c1)
      /\ activeSession (ctx_of run) = false
      /\ (forall (s : Settlement) (c2 : SkillContext),
            activeSession c2 = false -> ctx_of (k s c2) = c2)
  | _ => True
  end.

(** *** Further observations *)

Definition is_dispatch (e : Event) : bool :=
  match e with
  | Dispatch _ _ _ => true
  | _ => false
  end.

Definition is_console_log (e : Event) : bool :=
  match e with
  | ConsoleLog _ => true
  | _ => false
  end.

(** How many requests a trace sent to the collaborator, and how many
    "CALLING: ..." lines it wrote. *)
Definition dispatches (evs : list Event) : nat :=
  List.length (filter is_dispatch evs).

Definition calling_logs (evs : list Event) : nat :=
  List.length (filter is_console_log evs).

(** The envelope a call has sent, when its promise is pending. *)
Definition envelope_of (r : Result Promise) : option value :=
  match r with
  | Ok (Awaiting requestJSON _) => Some requestJSON
  | _ => None
  end.

(** The fault a call ends with before anything is sent, whether it is thrown
    or delivered as a rejected promise. *)
Definition fault_of (r : Result Promise) : option Err :=
  match r with
  | Throw e => Some e
  | Ok (Rejected e) => Some e
  | Ok (Awaiting _ _) => None
  end.

(** [withSlot] applied to the properties of an object one after the other,
    each with its own value; the first fault stops the copy. *)
Fixpoint withSlot_each {E : Collaborators} (c : SkillContext)
    (fields : list (string * value)) (serviceRequest : SkillRequest)
    : Result SkillRequest :=
  match fields with
  | [] => Ok serviceRequest
  | (slotName, slotValue) :: rest =>
      match withSlot c serviceRequest slotName slotValue with
      | Ok r => withSlot_each c rest r
      | Throw e => Throw e
      end
  end.

(** What an intent-triggered call leaves in the trace before [callSkill]. *)
Definition intent_pre (c : SkillContext) : list Event :=
  ((if playingNow c then [PlayerSuspend] else [])
   ++ [BuildRequest IntentRequest (suspendIfPlaying c)])%list.

(** A run sends at most one request: one when its promise is pending, none
    otherwise, and it writes one "CALLING: ..." line per request sent. *)
Definition dispatches_once
    (run : Result Promise * SkillContext * list Event) : Prop :=
  dispatches (events_of run) = (if awaiting (result_of run) then 1 else 0)
  /\ calling_logs (events_of run) = dispatches (events_of run).

(** A failure of the collaborator is passed on as it is and changes
    nothing. *)
Definition passes_failure_on
    (run : Result Promise * SkillContext * list Event) : Prop :=
  match result_of run with
  | Ok (Awaiting _ k) =>
      forall (e : Err) (c2 : SkillContext),
        k (RejectedBy e) c2 = (Throw e, c2, [])
  | _ => True
  end.

(** A run that leaves the audio player alone, up to the dispatch and when the
    result arrives. *)
Definition audioPlayer_untouched (c : SkillContext)
    (run : Result Promise * SkillContext * list Event) : Prop :=
  audioPlayer (ctx_of run) = audioPlayer c
  /\ suspensions (events_of run) = 0
  /\ match result_of run with
     | Ok (Awaiting _ k) =>
         forall (s : Settlement) (c2 : SkillContext),
           audioPlayer (ctx_of (k s c2)) = audioPlayer c2
     | _ => True
     end.

(** Every request of a trace was sent on the context [c0], and the player
    was never suspended. *)
Definition dispatched_on (c0 : SkillContext) (e : Event) : Prop :=
  match e with
  | Dispatch _ c _ => c = c0
  | PlayerSuspend => False
  | _ => True
  end.

(** The slot loop of [callSkillWithIntent] (the same in both revisions), run
    on the request [built] and the context [c1]: the request with the slots
    copied onto it, or the fault that stopped the copy. *)
Definition copied_slots {E : Collaborators} (slots : value)
    (built : SkillRequest) (c1 : SkillContext) : Result SkillRequest :=
  if negb (nullish slots)
  then result_of
         (SkillInteractor.withSlots slots (Object_keys slots) built c1)
  else Ok built.

(** The utterance [spoken] goes on with: the one the text matches, or the
    fallback. *)
Definition spokenUtterance {E : Collaborators} (utteranceString : string)
    : Utterance :=
  if matched (new_Utterance utteranceString)
  then new_Utterance utteranceString
  else fallbackUtterance.

(** An intent-triggered call started on [c] builds its request on the
    suspended context.  With [c1 := suspendIfPlaying c]: [c1] reports no
    playing player and neither does the context the call leaves; the trace
    has the suspension, if any, right before the one build, which is on
    [c1]; and the call goes on from what [intentRequest] answers on [c1]: its
    fault, or the request that, with the slots copied on [c1], is handed to
    [callSkill_] on [c1]. *)
Definition built_on_suspended {E : Collaborators}
    (callSkill_ : SkillRequest -> M Promise) (intentName : string)
    (slots : value) (c : SkillContext)
    (run : Result Promise * SkillContext * list Event) : Prop :=
  let c1 := suspendIfPlaying c in
  playingNow c1 = false
  /\ playingNow (ctx_of run) = false
  /\ suspends_before_build c (events_of run)
  /\ match intentRequest c1 intentName with
     | Throw e => fault_of (result_of run) = Some e /\ ctx_of run = c1
     | Ok built =>
         match copied_slots slots built c1 with
         | Throw e => fault_of (result_of run) = Some e /\ ctx_of run = c1
         | Ok serviceRequest =>
             let sent := callSkill_ serviceRequest c1 in
             envelope_of (result_of run) = envelope_of (result_of sent)
             /\ fault_of (result_of run) = fault_of (result_of sent)
             /\ ctx_of run = ctx_of sent
         end
     end.

(** The operation calls [suspend()] on the player: an intent-triggered call
    on a context that reports a playing player. *)
Definition suspends_player (op : Operation) (c : SkillContext) : bool :=
  match op with
  | Spoken _ | Intended _ _ => playingNow c
  | Launched | SessionEnded _ _ => false
  end.

(* ================================================================== *)
(** ** A sample skill

    The concrete scenario of the spec: an interaction model with the intent
    [HelloIntent] (template "hello") and the default phrase "help". *)

Module HelloSkill.

(** Modelled from the spec: the Utterance class ([Utterance.ts] is missing),
    for a model whose templates are single literal phrases. *)
Record SampleUtterance : Type := mkUtterance {
  phrase : string;
  matchedIntent : option string
}.

Definition matchPhrase (text : string) : option string :=
  if String.eqb text "hello" then Some "HelloIntent"
  else if String.eqb text "help" then Some "AMAZON.HelpIntent"
  else None.

Definition hasIntent (name : string) : bool :=
  String.eqb name "HelloIntent" || String.eqb name "AMAZON.HelpIntent".

(** Modelled from the spec: the Request Builder ([SkillRequest.ts] is
    missing): the three request shapes. *)
Record SampleRequest : Type := mkRequest {
  requestType : RequestType;
  intentName : string;
  slotValues : list (string * value);
  reason : option SessionEndedReason;
  error : value
}.

Definition typeTag (t : RequestType) : string :=
  match t with
  | LaunchRequest => "LaunchRequest"
  | IntentRequest => "IntentRequest"
  | SessionEndedRequest => "SessionEndedRequest"
  end.

Definition reasonTag (r : SessionEndedReason) : string :=
  match r with
  | ERROR => "ERROR"
  | EXCEEDED_MAX_REPROMPTS => "EXCEEDED_MAX_REPROMPTS"
  | USER_INITIATED => "USER_INITIATED"
  end.

(** An intent the model does not declare is a construction fault. *)
Definition sample_intentRequest (c : SkillContext) (name : string)
    : Result SampleRequest :=
  if hasIntent name then
    Ok {| requestType := IntentRequest; intentName := name; slotValues := [];
          reason := None; error := VUndefined |}
  else Throw (Error ("Interaction model has no intentName named: " ++ name)).

(** A slot supplied with the value [undefined] is omitted. *)
Definition sample_withSlot (c : SkillContext) (r : SampleRequest)
    (slotName : string) (slotValue : value) : Result SampleRequest :=
  match slotValue with
  | VUndefined => Ok r
  | _ =>
      Ok {| requestType := requestType r; intentName := intentName r;
            slotValues := (slotValues r ++ [(slotName, slotValue)])%list;
            reason := reason r; error := error r |}
  end.

Definition requestBlock (r : SampleRequest) : value :=
  match requestType r with
  | LaunchRequest => VObj [("type", VStr (typeTag LaunchRequest))]
  | IntentRequest =>
      VObj [("type", VStr (typeTag IntentRequest));
            ("intent", VObj [("name", VStr (intentName r));
                             ("slots", VObj (slotValues r))])]
  | SessionEndedRequest =>
      VObj [("type", VStr (typeTag SessionEndedRequest));
            ("reason", match reason r with
                       | Some x => VStr (reasonTag x)
                       | None => VUndefined
                       end);
            ("error", error r)]
  end.

(** The envelope: version tag, session block [{id, new, attributes,
    application: {id}}], request block. *)
Definition sample_toJSON (c : SkillContext) (r : SampleRequest) : Result value :=
  Ok (VObj
        [("version", VStr "1.0");
         ("session",
          VObj [("id", VNum (Z.of_nat (id (session c))));
                ("new", VBool (isNew (session c)));
                ("attributes", attributes (session c));
                ("application",
                 VObj [("id", match applicationID c with
                              | Some a => VStr a
                              | None => VUndefined
                              end)])]);
         ("request", requestBlock r)]).

(** A value holds a BigInt, at any depth. *)
Fixpoint has_bigint (v : value) : bool :=
  match v with
  | VBigInt _ => true
  | VObj fields =>
      (fix any (l : list (string * value)) : bool :=
         match l with
         | [] => false
         | (_, x) :: rest => has_bigint x || any rest
         end) fields
  | _ => false
  end.

(** [JSON.stringify] as far as the sample needs it: the TypeError on a
    BigInt, and some text otherwise. *)
Definition sample_stringify (v : value) : Result string :=
  if has_bigint v
  then Throw (TypeError "Do not know how to serialize a BigInt")
  else Ok (ToString v).

(** An error payload that [JSON.stringify] throws on. *)
Definition unserializable : value := VObj [("code", VBigInt 10)].

(** The launch request of the sample builder. *)
Definition launch : SampleRequest :=
  {| requestType := LaunchRequest; intentName := EmptyString;
     slotValues := []; reason := None; error := VUndefined |}.

Definition helloSkill : Collaborators := {|
  Utterance := SampleUtterance;
  new_Utterance := fun text =>
    {| phrase := text; matchedIntent := matchPhrase text |};
  matched := fun u =>
    match matchedIntent u with
    | Some _ => true
    | None => false
    end;
  intent := fun u =>
    match matchedIntent u with
    | Some name => name
    | None => "undefined"
    end;
  Utterance_toJSON := fun _ => VObj [];
  Utterance_toString := fun _ => "[object Object]";
  defaultUtterance_phrase := "help";
  SkillRequest := SampleRequest;
  launchRequest := fun _ => Ok launch;
  intentRequest := sample_intentRequest;
  withSlot := sample_withSlot;
  sessionEndedRequest := fun _ r e =>
    Ok {| requestType := SessionEndedRequest; intentName := EmptyString;
          slotValues := []; reason := Some r; error := e |};
  requiresSession := fun _ => true;
  toJSON := sample_toJSON;
  JSON_stringify := sample_stringify
|}.

(** The context a new interactor starts from. *)
Definition start : SkillContext := new_SkillInteractor (Some "amzn1.hello").

(** The same context while the player is PLAYING. *)
Definition startPlaying : SkillContext :=
  with_audioPlayer
    (Some {| activity := PLAYING;
             playing := Some {| itemToken := "track-1";
                                offsetInMilliseconds := 0 |} |})
    start.

(** The same context after the session has been terminated. *)
Definition startEnded : SkillContext := endSession start.

(** A payload whose should-end flag sits at the top level. *)
Definition flagged : value :=
  VObj [("shouldEndSession", VBool true);
        ("sessionAttributes", VObj [("turn", VNum 1)])].

(** A payload whose should-end flag sits inside the response object. *)
Definition ending : value :=
  VObj [("response", VObj [("shouldEndSession", VBool true)])].

(** The intent request of the sample builder for the default phrase. *)
Definition helpRequest : SampleRequest :=
  {| requestType := IntentRequest; intentName := "AMAZON.HelpIntent";
     slotValues := []; reason := None; error := VUndefined |}.

(** The session-ended request of the sample builder for an error. *)
Definition errorQuit : SampleRequest :=
  {| requestType := SessionEndedRequest; intentName := EmptyString;
     slotValues := []; reason := Some ERROR; error := VStr "boom" |}.

(** Two slots of an intent call. *)
Definition twoSlots : list (string * value) :=
  [("city", VStr "Paris"); ("day", VStr "Monday")].

(** The session-ended request of the sample builder. *)
Definition userQuit : SampleRequest :=
  {| requestType := SessionEndedRequest; intentName := EmptyString;
     slotValues := []; reason := Some USER_INITIATED; error := VUndefined |}.

(** A request filter that stamps the envelope and returns a value of its
    own. *)
Definition stamp : RequestFilter :=
  fun requestJSON =>
    (VObj (("stamped", VBool true) :: entries requestJSON), VStr "ignored").

End HelloSkill.

(* ================================================================== *)
(** * Properties *)

(** ** Values *)

Lemma get_not_nullish (v : value) (k : string) :
  nullish v = false -> exists x, get v k = Ok x.
Proof.
  destruct v; simpl; intros H; try discriminate; eauto.
  destruct (String.eqb k "length"); eauto.
Qed.

Lemma truthy_not_nullish (v : value) : truthy v = true -> nullish v = false.
Proof. destruct v; simpl; intros H; congruence. Qed.

(** ** The state machine *)

Lemma suspend_not_playing (p : AudioPlayer) : isPlaying (suspend p) = false.
Proof. unfold isPlaying, suspend. destruct (activity p) eqn:Ha; simpl; now rewrite ?Ha. Qed.

Lemma suspend_idle (p : AudioPlayer) : isPlaying p = false -> suspend p = p.
Proof. unfold isPlaying, suspend. destruct (activity p); congruence. Qed.

Lemma suspendIfPlaying_not_playing (c : SkillContext) :
  playingNow (suspendIfPlaying c) = false.
Proof.
  unfold playingNow, suspendIfPlaying.
  destruct (audioPlayer c) as [p|] eqn:Hp; simpl; [|now rewrite Hp].
  destruct (isPlaying p) eqn:Hq; simpl.
  - apply suspend_not_playing.
  - now rewrite Hp.
Qed.

Lemma suspendIfPlaying_idle (c : SkillContext) :
  playingNow c = false -> suspendIfPlaying c = c.
Proof.
  unfold playingNow, suspendIfPlaying.
  destruct (audioPlayer c) as [p|]; [|reflexivity].
  now intros ->.
Qed.

Lemma suspendIfPlaying_session (c : SkillContext) :
  session (suspendIfPlaying c) = session c.
Proof.
  unfold suspendIfPlaying.
  destruct (audioPlayer c) as [p|]; [|reflexivity].
  now destruct (isPlaying p).
Qed.

Lemma ensureSession_audioPlayer (b : bool) (c : SkillContext) :
  audioPlayer (ensureSession b c) = audioPlayer c.
Proof.
  unfold ensureSession. now destruct (b && negb (activeSession c)).
Qed.

Lemma ensureSession_active (c : SkillContext) :
  activeSession (ensureSession true c) = true.
Proof.
  unfold ensureSession. simpl. now destruct (activeSession c) eqn:Ha.
Qed.

(** ** Runs of the monad *)

Lemma bind_run {A B : Type} (m : M A) (f : A -> M B) (c : SkillContext) :
  bind m f c =
    match m c with
    | (Ok a, c1, t1) =>
        (result_of (f a c1), ctx_of (f a c1), (t1 ++ events_of (f a c1))%list)
    | (Throw e, c1, t1) => (Throw e, c1, t1)
    end.
Proof.
  unfold bind, result_of, ctx_of, events_of.
  destruct (m c) as [[[a|e] c1] t1]; [|reflexivity].
  now destruct (f a c1) as [[r c2] t2].
Qed.

Lemma run_eta {A : Type} (run : Result A * SkillContext * list Event) :
  run = (result_of run, ctx_of run, events_of run).
Proof. now destruct run as [[r c] t]. Qed.

Ltac project :=
  repeat match goal with
         | |- context [result_of (?r, ?c, ?t)] =>
             change (result_of (r, c, t)) with r
         | |- context [ctx_of (?r, ?c, ?t)] =>
             change (ctx_of (r, c, t)) with c
         | |- context [events_of (?r, ?c, ?t)] =>
             change (events_of (r, c, t)) with t
         end.

Ltac unfold_js :=
  unfold async, try_catch, invoke, getM, call, read, modify, emit, when,
    console_log, console_warn, console_error, audioPlayer_isPlaying,
    audioPlayer_suspend, bind, ret, throw in *.

Ltac case_results :=
  repeat match goal with
         | |- context [match ?x with Ok _ => _ | Throw _ => _ end] =>
             destruct x eqn:?; simpl
         | |- context [if ?b then _ else _] => destruct b eqn:?; simpl
         end.

(** The cases of a run of [callSkill]: serialization, then the two property
    reads of the console line. *)
Ltac callSkill_cases :=
  destruct (toJSON _ _) as [?json|?e];
  [destruct (get _ "request") as [?request|?e];
   [destruct (get _ "type") as [?ty|?e]|]|].

Section Dispatch.
Context {E : Collaborators}.

(** *** [callSkill], up to the invocation boundary *)

Lemma Abstract_callSkill_run (serviceRequest : SkillRequest)
    (requestFilter : option RequestFilter) (c : SkillContext) :
  AbstractSkillInteractor.callSkill serviceRequest requestFilter c =
    let c1 := ensureSession (requiresSession serviceRequest) c in
    match toJSON c1 serviceRequest with
    | Throw e => (Ok (Rejected e), c1, [])
    | Ok json =>
        let requestJSON := applyFilter requestFilter json in
        match get requestJSON "request" with
        | Throw e => (Ok (Rejected e), c1, [])
        | Ok request =>
            match get request "type" with
            | Throw e => (Ok (Rejected e), c1, [])
            | Ok ty =>
                (Ok (Awaiting requestJSON AbstractSkillInteractor.await_invoke),
                 c1,
                 [ConsoleLog ("CALLING: " ++ ToString ty);
                  Dispatch (requiresSession serviceRequest) c1 requestJSON])
            end
        end
    end.
Proof.
  unfold AbstractSkillInteractor.callSkill, ensureSession, applyFilter.
  unfold_js.
  destruct (requiresSession serviceRequest && negb (activeSession c)); simpl;
    case_results; reflexivity.
Qed.

Lemma SkillInteractor_callSkill_run (serviceRequest : SkillRequest)
    (c : SkillContext) :
  SkillInteractor.callSkill serviceRequest c =
    let c1 := ensureSession (requiresSession serviceRequest) c in
    match toJSON c1 serviceRequest with
    | Throw e => (Throw e, c1, [])
    | Ok requestJSON =>
        match get requestJSON "request" with
        | Throw e => (Throw e, c1, [])
        | Ok request =>
            match get request "type" with
            | Throw e => (Throw e, c1, [])
            | Ok ty =>
                (Ok (Awaiting requestJSON SkillInteractor.invoke_then),
                 c1,
                 [ConsoleLog ("CALLING: " ++ ToString ty);
                  Dispatch (requiresSession serviceRequest) c1 requestJSON])
            end
        end
    end.
Proof.
  unfold SkillInteractor.callSkill, ensureSession.
  unfold_js.
  destruct (requiresSession serviceRequest && negb (activeSession c)); simpl;
    case_results; reflexivity.
Qed.

(** What the two lemmas above give without looking at the serialization:
    the context after [callSkill] and the shape of its trace. *)
Lemma Abstract_callSkill_frame (serviceRequest : SkillRequest)
    (requestFilter : option RequestFilter) (c : SkillContext) :
  let run := AbstractSkillInteractor.callSkill serviceRequest requestFilter c in
  ctx_of run = ensureSession (requiresSession serviceRequest) c
  /\ forallb is_log_or_dispatch (events_of run) = true
  /\ forallb dispatch_ok (events_of run) = true
  /\ (exists p, result_of run = Ok p)
  /\ (awaiting (result_of run) = false -> events_of run = []).
Proof.
  simpl. rewrite Abstract_callSkill_run. simpl.
  case_results; unfold ctx_of, events_of, result_of; simpl;
    repeat split; eauto; try discriminate.
  all: destruct (requiresSession serviceRequest) eqn:Hr; simpl; try reflexivity;
    now rewrite ensureSession_active.
Qed.

Lemma SkillInteractor_callSkill_frame (serviceRequest : SkillRequest)
    (c : SkillContext) :
  let run := SkillInteractor.callSkill serviceRequest c in
  ctx_of run = ensureSession (requiresSession serviceRequest) c
  /\ forallb is_log_or_dispatch (events_of run) = true
  /\ forallb dispatch_ok (events_of run) = true
  /\ (awaiting (result_of run) = false -> events_of run = []).
Proof.
  simpl. rewrite SkillInteractor_callSkill_run. simpl.
  case_results; unfold ctx_of, events_of, result_of; simpl;
    repeat split; eauto; try discriminate.
  all: destruct (requiresSession serviceRequest) eqn:Hr; simpl; try reflexivity;
    now rewrite ensureSession_active.
Qed.

(** *** The slot loop reads the context and nothing more *)

Lemma Abstract_withSlots_pure (slots : value) (slotNames : list string) :
  forall (serviceRequest : SkillRequest) (c : SkillContext),
    AbstractSkillInteractor.withSlots slots slotNames serviceRequest c =
      (result_of
         (AbstractSkillInteractor.withSlots slots slotNames serviceRequest c),
       c, []).
Proof.
  induction slotNames as [|slotName rest IH]; intros serviceRequest c.
  - reflexivity.
  - simpl. unfold_js. unfold result_of.
    destruct (get slots slotName) as [slotValue|e]; simpl; [|reflexivity].
    destruct (withSlot c serviceRequest slotName slotValue) as [r|e]; simpl;
      [|reflexivity].
    rewrite (IH r c). reflexivity.
Qed.

Lemma SkillInteractor_withSlots_pure (slots : value) (slotNames : list string) :
  forall (serviceRequest : SkillRequest) (c : SkillContext),
    SkillInteractor.withSlots slots slotNames serviceRequest c =
      (result_of
         (SkillInteractor.withSlots slots slotNames serviceRequest c),
       c, []).
Proof.
  induction slotNames as [|slotName rest IH]; intros serviceRequest c.
  - reflexivity.
  - simpl. unfold_js. unfold result_of.
    destruct (get slots slotName) as [slotValue|e]; simpl; [|reflexivity].
    destruct (withSlot c serviceRequest slotName slotValue) as [r|e]; simpl;
      [|reflexivity].
    rewrite (IH r c). reflexivity.
Qed.

End Dispatch.

Section IntentCalls.
Context {E : Collaborators}.

(** *** [callSkillWithIntent]: suspend, build, copy the slots, dispatch *)

Lemma Abstract_callSkillWithIntent_run (intentName : string) (slots : value)
    (requestFilter : option RequestFilter) (c : SkillContext) :
  AbstractSkillInteractor.callSkillWithIntent intentName slots requestFilter c =
    let c1 := suspendIfPlaying c in
    let pre := ((if playingNow c then [PlayerSuspend] else [])
                ++ [BuildRequest IntentRequest c1])%list in
    match intentRequest c1 intentName with
    | Throw e => (Throw e, c1, pre)
    | Ok built =>
        match (if negb (nullish slots)
               then result_of (AbstractSkillInteractor.withSlots slots
                                 (Object_keys slots) built c1)
               else Ok built) with
        | Throw e => (Throw e, c1, pre)
        | Ok serviceRequest =>
            let run := AbstractSkillInteractor.callSkill serviceRequest
                         requestFilter c1 in
            (result_of run, ctx_of run, (pre ++ events_of run)%list)
        end
    end.
Proof.
  unfold AbstractSkillInteractor.callSkillWithIntent, suspendIfPlaying,
    playingNow, audioPlayerEnabled.
  unfold_js.
  destruct c as [s [p|] a n]; simpl; [destruct (isPlaying p) eqn:Hq; simpl|].
  all: destruct (intentRequest _ intentName) as [built|e]; simpl;
    [|reflexivity].
  all: destruct (nullish slots); simpl;
    [|rewrite Abstract_withSlots_pure;
      destruct (result_of _) as [r|e]; simpl; [|reflexivity]].
  all: rewrite (run_eta (AbstractSkillInteractor.callSkill _ _ _));
    reflexivity.
Qed.

Lemma SkillInteractor_callSkillWithIntent_run (intentName : string)
    (slots : value) (c : SkillContext) :
  SkillInteractor.callSkillWithIntent intentName slots c =
    let c1 := suspendIfPlaying c in
    let pre := ((if playingNow c then [PlayerSuspend] else [])
                ++ [BuildRequest IntentRequest c1])%list in
    match intentRequest c1 intentName with
    | Throw e => (Throw e, c1, pre)
    | Ok built =>
        match (if negb (nullish slots)
               then result_of (SkillInteractor.withSlots slots
                                 (Object_keys slots) built c1)
               else Ok built) with
        | Throw e => (Throw e, c1, pre)
        | Ok serviceRequest =>
            let run := SkillInteractor.callSkill serviceRequest c1 in
            (result_of run, ctx_of run, (pre ++ events_of run)%list)
        end
    end.
Proof.
  unfold SkillInteractor.callSkillWithIntent, suspendIfPlaying,
    playingNow, audioPlayerEnabled.
  unfold_js.
  destruct c as [s [p|] a n]; simpl; [destruct (isPlaying p) eqn:Hq; simpl|].
  all: destruct (intentRequest _ intentName) as [built|e]; simpl;
    [|reflexivity].
  all: destruct (nullish slots); simpl;
    [|rewrite SkillInteractor_withSlots_pure;
      destruct (result_of _) as [r|e]; simpl; [|reflexivity]].
  all: rewrite (run_eta (SkillInteractor.callSkill _ _));
    reflexivity.
Qed.

(** *** When the result of the invocation arrives *)

Lemma Abstract_await_invoke_frame (s : Settlement) (c2 : SkillContext) :
  let run := AbstractSkillInteractor.await_invoke s c2 in
  audioPlayer (ctx_of run) = audioPlayer c2
  /\ sessionsCreated (ctx_of run) = sessionsCreated c2
  /\ events_of run = [].
Proof.
  destruct s as [result|e]; simpl; [|now repeat split].
  unfold AbstractSkillInteractor.callSkill_resume, activeSession.
  unfold_js. unfold ctx_of, events_of.
  destruct c2 as [[i a n b] p app k]; simpl.
  destruct b; simpl; [|now repeat split].
  destruct result; simpl; case_results; now repeat split.
Qed.

Lemma SkillInteractor_invoke_then_frame (s : Settlement) (c2 : SkillContext) :
  let run := SkillInteractor.invoke_then s c2 in
  audioPlayer (ctx_of run) = audioPlayer c2
  /\ sessionsCreated (ctx_of run) = sessionsCreated c2
  /\ events_of run = [].
Proof.
  destruct s as [result|e]; simpl; [|now repeat split].
  unfold SkillInteractor.callSkill_then, activeSession.
  unfold_js. unfold ctx_of, events_of.
  destruct c2 as [[i a n b] p app k]; simpl.
  destruct b; simpl; [|now repeat split].
  destruct result; simpl; case_results; now repeat split.
Qed.

Lemma log_or_dispatch_is_other (evs : list Event) :
  forallb is_log_or_dispatch evs = true -> forallb is_other evs = true.
Proof.
  induction evs as [|e evs IH]; simpl; [reflexivity|].
  intros H. apply andb_true_iff in H as [He Hs].
  rewrite (IH Hs), andb_true_r. now destruct e.
Qed.

Lemma log_or_dispatch_no_suspension (evs : list Event) :
  forallb is_log_or_dispatch evs = true -> suspensions evs = 0.
Proof.
  unfold suspensions.
  induction evs as [|e evs IH]; simpl; [reflexivity|].
  intros H. apply andb_true_iff in H as [He Hs].
  destruct e; simpl in *; try discriminate; auto.
Qed.

Lemma suspensions_app (l1 l2 : list Event) :
  suspensions (l1 ++ l2) = suspensions l1 + suspensions l2.
Proof. unfold suspensions. now rewrite filter_app, length_app. Qed.

End IntentCalls.

(* ================================================================== *)
(** ** Intent-triggered calls and the audio player *)

Section AudioPlayerClaims.
Context {E : Collaborators}.

Lemma suspendIfPlaying_audioPlayer (c : SkillContext) :
  audioPlayer (suspendIfPlaying c) =
    (if playingNow c then option_map suspend (audioPlayer c)
     else audioPlayer c).
Proof.
  unfold suspendIfPlaying, playingNow.
  destruct (audioPlayer c) as [p|] eqn:Hp; [|now rewrite Hp].
  destruct (isPlaying p); simpl; now rewrite ?Hp.
Qed.

Lemma suspensions_pre (c c1 : SkillContext) :
  suspensions ((if playingNow c then [PlayerSuspend] else [])
               ++ [BuildRequest IntentRequest c1]) =
    (if playingNow c then 1 else 0).
Proof. now destruct (playingNow c). Qed.

Lemma Abstract_callSkillWithIntent_audioPlayer (intentName : string)
    (slots : value) (requestFilter : option RequestFilter) (c : SkillContext) :
  audioPlayer_frame c
    (AbstractSkillInteractor.callSkillWithIntent intentName slots
       requestFilter c).
Proof.
  unfold audioPlayer_frame.
  rewrite Abstract_callSkillWithIntent_run. cbv zeta.
  destruct (intentRequest _ intentName) as [built|e];
    [|project; now rewrite suspendIfPlaying_audioPlayer, suspensions_pre].
  destruct (if negb (nullish slots) then _ else _) as [serviceRequest|e];
    [|project; now rewrite suspendIfPlaying_audioPlayer, suspensions_pre].
  destruct (Abstract_callSkill_frame serviceRequest requestFilter
              (suspendIfPlaying c)) as (Hc & Hl & _ & _ & _).
  project.
  rewrite Hc, ensureSession_audioPlayer, suspendIfPlaying_audioPlayer.
  rewrite suspensions_app, suspensions_pre,
    (log_or_dispatch_no_suspension _ Hl), Nat.add_0_r.
  split; [reflexivity|split; [reflexivity|]].
  rewrite Abstract_callSkill_run. cbv zeta.
  callSkill_cases; project; try exact I.
  intros s c2.
  destruct (Abstract_await_invoke_frame s c2) as (Ha & _ & He).
  now rewrite Ha, He.
Qed.

Lemma SkillInteractor_callSkillWithIntent_audioPlayer (intentName : string)
    (slots : value) (c : SkillContext) :
  audioPlayer_frame c (SkillInteractor.callSkillWithIntent intentName slots c).
Proof.
  unfold audioPlayer_frame.
  rewrite SkillInteractor_callSkillWithIntent_run. cbv zeta.
  destruct (intentRequest _ intentName) as [built|e];
    [|project; now rewrite suspendIfPlaying_audioPlayer, suspensions_pre].
  destruct (if negb (nullish slots) then _ else _) as [serviceRequest|e];
    [|project; now rewrite suspendIfPlaying_audioPlayer, suspensions_pre].
  destruct (SkillInteractor_callSkill_frame serviceRequest
              (suspendIfPlaying c)) as (Hc & Hl & _ & _).
  project.
  rewrite Hc, ensureSession_audioPlayer, suspendIfPlaying_audioPlayer.
  rewrite suspensions_app, suspensions_pre,
    (log_or_dispatch_no_suspension _ Hl), Nat.add_0_r.
  split; [reflexivity|split; [reflexivity|]].
  rewrite SkillInteractor_callSkill_run. cbv zeta.
  callSkill_cases; project; try exact I.
  intros s c2.
  destruct (SkillInteractor_invoke_then_frame s c2) as (Ha & _ & He).
  now rewrite Ha, He.
Qed.

(** C10.  In both revisions an intent-triggered call changes the audio player
    only through [suspend()], called once and only when the context reports
    audio player support enabled and the player PLAYING; when support is
    disabled or the player is not PLAYING, the player is left as it was, up
    to the dispatch and when the result of the invocation arrives. *)
Theorem callSkillWithIntent_audioPlayer_frame (intentName : string)
    (slots : value) (requestFilter : option RequestFilter) (c : SkillContext) :
  audioPlayer_frame c (SkillInteractor.callSkillWithIntent intentName slots c)
  /\ audioPlayer_frame c
       (AbstractSkillInteractor.callSkillWithIntent intentName slots
          requestFilter c).
Proof.
  split.
  - apply SkillInteractor_callSkillWithIntent_audioPlayer.
  - apply Abstract_callSkillWithIntent_audioPlayer.
Qed.

End AudioPlayerClaims.

(* ================================================================== *)
(** ** The public operations in terms of the calls they make *)

Section PublicOperations.
Context {E : Collaborators}.

Lemma Abstract_spoken_run (utteranceString : string)
    (requestFilter : option RequestFilter) (c : SkillContext) :
  AbstractSkillInteractor.spoken utteranceString requestFilter c =
    if matched (new_Utterance utteranceString) then
      AbstractSkillInteractor.callSkillWithIntent
        (intent (new_Utterance utteranceString))
        (Utterance_toJSON (new_Utterance utteranceString)) requestFilter c
    else
      let run := AbstractSkillInteractor.callSkillWithIntent
                   (intent fallbackUtterance)
                   (Utterance_toJSON fallbackUtterance) requestFilter c in
      (result_of run, ctx_of run, ConsoleWarn fallbackWarning :: events_of run).
Proof.
  unfold AbstractSkillInteractor.spoken, fallbackWarning, fallbackUtterance.
  destruct (matched (new_Utterance utteranceString)); simpl.
  - unfold bind, ret.
    now destruct (AbstractSkillInteractor.callSkillWithIntent _ _ _ _)
      as [[r c1] t].
  - unfold bind, ret, console_warn, emit. simpl.
    now destruct (AbstractSkillInteractor.callSkillWithIntent _ _ _ _)
      as [[r c1] t].
Qed.

Lemma SkillInteractor_spoken_run (utteranceString : string)
    (c : SkillContext) :
  SkillInteractor.spoken utteranceString c =
    if matched (new_Utterance utteranceString) then
      SkillInteractor.callSkillWithIntent
        (intent (new_Utterance utteranceString))
        (Utterance_toJSON (new_Utterance utteranceString)) c
    else
      let run := SkillInteractor.callSkillWithIntent
                   (intent fallbackUtterance)
                   (Utterance_toJSON fallbackUtterance) c in
      (result_of run, ctx_of run, ConsoleWarn fallbackWarning :: events_of run).
Proof.
  unfold SkillInteractor.spoken, fallbackWarning, fallbackUtterance.
  destruct (matched (new_Utterance utteranceString)); simpl.
  - unfold bind, ret.
    now destruct (SkillInteractor.callSkillWithIntent _ _ _) as [[r c1] t].
  - unfold bind, ret, console_warn, emit. simpl.
    now destruct (SkillInteractor.callSkillWithIntent _ _ _) as [[r c1] t].
Qed.

Lemma Abstract_intended_run (intentName : string) (slots : value)
    (requestFilter : option RequestFilter) (c : SkillContext) :
  AbstractSkillInteractor.intended intentName slots requestFilter c =
    let run := AbstractSkillInteractor.callSkillWithIntent intentName slots
                 requestFilter c in
    (match result_of run with
     | Throw e => Ok (Rejected e)
     | Ok p => Ok p
     end, ctx_of run, events_of run).
Proof.
  unfold AbstractSkillInteractor.intended, try_catch, ret. cbv zeta.
  destruct (AbstractSkillInteractor.callSkillWithIntent _ _ _ _)
    as [[[p|e] c1] t]; project; [reflexivity|].
  now rewrite app_nil_r.
Qed.

Lemma Abstract_launched_run (requestFilter : option RequestFilter)
    (c : SkillContext) :
  AbstractSkillInteractor.launched requestFilter c =
    match launchRequest c with
    | Throw e => (Throw e, c, [BuildRequest LaunchRequest c])
    | Ok serviceRequest =>
        let run := AbstractSkillInteractor.callSkill serviceRequest
                     requestFilter c in
        (result_of run, ctx_of run,
         BuildRequest LaunchRequest c :: events_of run)
    end.
Proof.
  unfold AbstractSkillInteractor.launched. unfold_js. cbv zeta.
  destruct (launchRequest c) as [serviceRequest|e]; [|reflexivity].
  now rewrite (run_eta (AbstractSkillInteractor.callSkill _ _ _)).
Qed.

Lemma SkillInteractor_launched_run (c : SkillContext) :
  SkillInteractor.launched c =
    match launchRequest c with
    | Throw e => (Throw e, c, [BuildRequest LaunchRequest c])
    | Ok serviceRequest =>
        let run := SkillInteractor.callSkill serviceRequest c in
        (result_of run, ctx_of run,
         BuildRequest LaunchRequest c :: events_of run)
    end.
Proof.
  unfold SkillInteractor.launched. unfold_js. cbv zeta.
  destruct (launchRequest c) as [serviceRequest|e]; [|reflexivity].
  now rewrite (run_eta (SkillInteractor.callSkill _ _)).
Qed.

Lemma Abstract_sessionEnded_run (sessionEndedReason : SessionEndedReason)
    (errorData : value) (requestFilter : option RequestFilter)
    (c : SkillContext) :
  AbstractSkillInteractor.sessionEnded sessionEndedReason errorData
      requestFilter c =
    match diagnostic_fault sessionEndedReason errorData with
    | Some e => (Throw e, c, [])
    | None =>
        let pre := sessionEnded_pre sessionEndedReason errorData c in
        match sessionEndedRequest c sessionEndedReason errorData with
        | Throw e => (Throw e, c, pre)
        | Ok serviceRequest =>
            let run := AbstractSkillInteractor.callSkill serviceRequest
                         requestFilter c in
            (match result_of run with
             | Ok promise =>
                 Ok (then_ promise AbstractSkillInteractor.endSession_then)
             | Throw e => Throw e
             end, ctx_of run, (pre ++ events_of run)%list)
        end
    end.
Proof.
  unfold AbstractSkillInteractor.sessionEnded, sessionEnded_pre,
    sessionEndedDiagnostic, diagnostic_fault, stringified.
  unfold_js. cbv zeta.
  destruct (isERROR sessionEndedReason); simpl;
    [destruct (JSON_stringify errorData) as [text|e0]; simpl; [|reflexivity]|];
    (destruct (sessionEndedRequest c _ _) as [serviceRequest|e];
     [|reflexivity]);
    destruct (AbstractSkillInteractor.callSkill _ _ _) as [[[p|e] c1] t];
    project; simpl; now rewrite ?app_nil_r.
Qed.

Lemma SkillInteractor_sessionEnded_run
    (sessionEndedReason : SessionEndedReason) (errorData : value)
    (c : SkillContext) :
  SkillInteractor.sessionEnded sessionEndedReason errorData c =
    match diagnostic_fault sessionEndedReason errorData with
    | Some e => (Throw e, c, [])
    | None =>
        let pre := sessionEnded_pre sessionEndedReason errorData c in
        match sessionEndedRequest c sessionEndedReason errorData with
        | Throw e => (Throw e, c, pre)
        | Ok serviceRequest =>
            let run := SkillInteractor.callSkill serviceRequest c in
            (result_of run,
             match result_of run with
             | Ok _ => endSession (ctx_of run)
             | Throw _ => ctx_of run
             end, (pre ++ events_of run)%list)
        end
    end.
Proof.
  unfold SkillInteractor.sessionEnded, sessionEnded_pre,
    sessionEndedDiagnostic, diagnostic_fault, stringified.
  unfold_js. cbv zeta.
  destruct (isERROR sessionEndedReason); simpl;
    [destruct (JSON_stringify errorData) as [text|e0]; simpl; [|reflexivity]|];
    (destruct (sessionEndedRequest c _ _) as [serviceRequest|e];
     [|reflexivity]);
    destruct (SkillInteractor.callSkill _ _) as [[[p|e] c1] t];
    project; simpl; now rewrite ?app_nil_r.
Qed.

(** *** The trace of an intent-triggered call *)

Lemma suspends_before_build_cons (c : SkillContext) (e : Event)
    (evs : list Event) :
  is_other e = true ->
  suspends_before_build c evs -> suspends_before_build c (e :: evs).
Proof.
  intros He (pre & post & -> & Hp & Hpre & Hpost).
  exists (e :: pre), post. simpl. now rewrite He, Hpre.
Qed.

Lemma Abstract_callSkillWithIntent_trace (intentName : string) (slots : value)
    (requestFilter : option RequestFilter) (c : SkillContext) :
  suspends_before_build c
    (events_of (AbstractSkillInteractor.callSkillWithIntent intentName slots
                  requestFilter c)).
Proof.
  rewrite Abstract_callSkillWithIntent_run. cbv zeta.
  exists [].
  destruct (intentRequest _ intentName) as [built|e];
    [destruct (if negb (nullish slots) then _ else _) as [serviceRequest|e]|];
    project.
  - exists (events_of (AbstractSkillInteractor.callSkill serviceRequest
                         requestFilter (suspendIfPlaying c))).
    destruct (Abstract_callSkill_frame serviceRequest requestFilter
                (suspendIfPlaying c)) as (_ & Hl & _).
    rewrite <- app_assoc. simpl.
    now rewrite suspendIfPlaying_not_playing, (log_or_dispatch_is_other _ Hl).
  - exists []. now rewrite suspendIfPlaying_not_playing.
  - exists []. now rewrite suspendIfPlaying_not_playing.
Qed.

Lemma SkillInteractor_callSkillWithIntent_trace (intentName : string)
    (slots : value) (c : SkillContext) :
  suspends_before_build c
    (events_of (SkillInteractor.callSkillWithIntent intentName slots c)).
Proof.
  rewrite SkillInteractor_callSkillWithIntent_run. cbv zeta.
  exists [].
  destruct (intentRequest _ intentName) as [built|e];
    [destruct (if negb (nullish slots) then _ else _) as [serviceRequest|e]|];
    project.
  - exists (events_of (SkillInteractor.callSkill serviceRequest
                         (suspendIfPlaying c))).
    destruct (SkillInteractor_callSkill_frame serviceRequest
                (suspendIfPlaying c)) as (_ & Hl & _).
    rewrite <- app_assoc. simpl.
    now rewrite suspendIfPlaying_not_playing, (log_or_dispatch_is_other _ Hl).
  - exists []. now rewrite suspendIfPlaying_not_playing.
  - exists []. now rewrite suspendIfPlaying_not_playing.
Qed.

Lemma playingNow_audioPlayer (a b : SkillContext) :
  audioPlayer a = audioPlayer b -> playingNow a = playingNow b.
Proof. unfold playingNow. now intros ->. Qed.

Lemma SkillInteractor_callSkillWithIntent_built (intentName : string)
    (slots : value) (c : SkillContext) :
  built_on_suspended SkillInteractor.callSkill intentName slots c
    (SkillInteractor.callSkillWithIntent intentName slots c).
Proof.
  unfold built_on_suspended. cbv zeta.
  split; [apply suspendIfPlaying_not_playing|].
  split.
  { destruct (SkillInteractor_callSkillWithIntent_audioPlayer intentName
                slots c) as (Ha & _).
    rewrite <- suspendIfPlaying_audioPlayer in Ha.
    rewrite (playingNow_audioPlayer _ _ Ha).
    apply suspendIfPlaying_not_playing. }
  split; [apply SkillInteractor_callSkillWithIntent_trace|].
  rewrite SkillInteractor_callSkillWithIntent_run. cbv zeta.
  unfold copied_slots.
  destruct (intentRequest _ intentName) as [built|e]; [|now project].
  destruct (if negb (nullish slots) then _ else _) as [serviceRequest|e];
    project; now repeat split.
Qed.

Lemma Abstract_callSkillWithIntent_built (intentName : string)
    (slots : value) (requestFilter : option RequestFilter) (c : SkillContext) :
  built_on_suspended
    (fun serviceRequest =>
       AbstractSkillInteractor.callSkill serviceRequest requestFilter)
    intentName slots c
    (AbstractSkillInteractor.callSkillWithIntent intentName slots
       requestFilter c).
Proof.
  unfold built_on_suspended. cbv zeta.
  split; [apply suspendIfPlaying_not_playing|].
  split.
  { destruct (Abstract_callSkillWithIntent_audioPlayer intentName slots
                requestFilter c) as (Ha & _).
    rewrite <- suspendIfPlaying_audioPlayer in Ha.
    rewrite (playingNow_audioPlayer _ _ Ha).
    apply suspendIfPlaying_not_playing. }
  split; [apply Abstract_callSkillWithIntent_trace|].
  rewrite Abstract_callSkillWithIntent_run. cbv zeta.
  unfold copied_slots.
  change (AbstractSkillInteractor.withSlots slots (Object_keys slots))
    with (SkillInteractor.withSlots slots (Object_keys slots)).
  destruct (intentRequest _ intentName) as [built|e]; [|now project].
  destruct (if negb (nullish slots) then _ else _) as [serviceRequest|e];
    project; now repeat split.
Qed.

Lemma built_on_suspended_transfer (callSkill_ : SkillRequest -> M Promise)
    (intentName : string) (slots : value) (c : SkillContext)
    (run run' : Result Promise * SkillContext * list Event) :
  fault_of (result_of run') = fault_of (result_of run) ->
  envelope_of (result_of run') = envelope_of (result_of run) ->
  ctx_of run' = ctx_of run ->
  suspends_before_build c (events_of run') ->
  built_on_suspended callSkill_ intentName slots c run ->
  built_on_suspended callSkill_ intentName slots c run'.
Proof.
  unfold built_on_suspended. cbv zeta.
  intros Hf Hv Hc Ht (H1 & H2 & _ & H4).
  rewrite Hf, Hv, Hc. now repeat split.
Qed.

(** C2.  In both revisions, every intent-triggered call ([spoken] or
    [intended]) forces the audio player out of PLAYING before it builds the
    intent request: the request is built by [intentRequest] on the context
    left by the suspension, which reports no playing player; the same holds
    of the context the call leaves; and in the trace the suspension, when the
    player was PLAYING, comes right before the one build. *)
Theorem intent_request_built_after_suspend (utteranceString : string)
    (intentName : string) (slots : value)
    (requestFilter : option RequestFilter) (c : SkillContext) :
  let utterance := spokenUtterance utteranceString in
  built_on_suspended SkillInteractor.callSkill
    (intent utterance) (Utterance_toJSON utterance) c
    (SkillInteractor.spoken utteranceString c)
  /\ built_on_suspended SkillInteractor.callSkill intentName slots c
       (SkillInteractor.intended intentName slots c)
  /\ built_on_suspended
       (fun serviceRequest =>
          AbstractSkillInteractor.callSkill serviceRequest requestFilter)
       (intent utterance) (Utterance_toJSON utterance) c
       (AbstractSkillInteractor.spoken utteranceString requestFilter c)
  /\ built_on_suspended
       (fun serviceRequest =>
          AbstractSkillInteractor.callSkill serviceRequest requestFilter)
       intentName slots c
       (AbstractSkillInteractor.intended intentName slots requestFilter c).
Proof.
  cbv zeta. unfold spokenUtterance.
  split; [|split; [|split]].
  - rewrite SkillInteractor_spoken_run.
    destruct (matched (new_Utterance utteranceString)); cbv beta zeta iota.
    + apply SkillInteractor_callSkillWithIntent_built.
    + apply (built_on_suspended_transfer _ _ _ _
               (SkillInteractor.callSkillWithIntent (intent fallbackUtterance)
                  (Utterance_toJSON fallbackUtterance) c));
        [reflexivity|reflexivity|reflexivity|
         |apply SkillInteractor_callSkillWithIntent_built].
      project. apply suspends_before_build_cons; [reflexivity|].
      apply SkillInteractor_callSkillWithIntent_trace.
  - apply SkillInteractor_callSkillWithIntent_built.
  - rewrite Abstract_spoken_run.
    destruct (matched (new_Utterance utteranceString)); cbv beta zeta iota.
    + apply Abstract_callSkillWithIntent_built.
    + apply (built_on_suspended_transfer _ _ _ _
               (AbstractSkillInteractor.callSkillWithIntent
                  (intent fallbackUtterance)
                  (Utterance_toJSON fallbackUtterance) requestFilter c));
        [reflexivity|reflexivity|reflexivity|
         |apply Abstract_callSkillWithIntent_built].
      project. apply suspends_before_build_cons; [reflexivity|].
      apply Abstract_callSkillWithIntent_trace.
  - rewrite Abstract_intended_run. cbv zeta.
    apply (built_on_suspended_transfer _ _ _ _
             (AbstractSkillInteractor.callSkillWithIntent intentName slots
                requestFilter c));
      [| | |
       |apply (Abstract_callSkillWithIntent_built intentName slots
                 requestFilter c)];
      project;
      try (now destruct (result_of _) as [[e|requestJSON k]|e]).
    + reflexivity.
    + apply Abstract_callSkillWithIntent_trace.
Qed.

End PublicOperations.

(* ================================================================== *)
(** ** The session at dispatch *)

Section SessionAtDispatch.
Context {E : Collaborators}.

Lemma dispatches_with_session_pre (pre : list Event) (c' : SkillContext)
    (run : Result Promise * SkillContext * list Event) :
  forallb dispatch_ok pre = true ->
  dispatches_with_session run ->
  dispatches_with_session (result_of run, c', (pre ++ events_of run)%list).
Proof.
  intros Hpre [Hev Hk]. split; project; [|exact Hk].
  now rewrite forallb_app, Hpre, Hev.
Qed.

Lemma dispatches_with_session_throw (e : Err) (c' : SkillContext)
    (pre : list Event) :
  forallb dispatch_ok pre = true ->
  dispatches_with_session (Throw e, c', pre).
Proof. intros Hpre. split; project; [exact Hpre|exact I]. Qed.

Lemma intent_pre_ok (c c1 : SkillContext) :
  forallb dispatch_ok
    ((if playingNow c then [PlayerSuspend] else [])
     ++ [BuildRequest IntentRequest c1]) = true.
Proof. now destruct (playingNow c). Qed.

Lemma sessionEnded_pre_ok (sessionEndedReason : SessionEndedReason)
    (errorData : value) (c : SkillContext) :
  forallb dispatch_ok (sessionEnded_pre sessionEndedReason errorData c) = true.
Proof. unfold sessionEnded_pre. now destruct (isERROR sessionEndedReason). Qed.

Lemma Abstract_callSkill_dispatches (serviceRequest : SkillRequest)
    (requestFilter : option RequestFilter) (c : SkillContext) :
  dispatches_with_session
    (AbstractSkillInteractor.callSkill serviceRequest requestFilter c).
Proof.
  split.
  - apply Abstract_callSkill_frame.
  - rewrite Abstract_callSkill_run. cbv zeta.
    callSkill_cases; project; try exact I.
    intros s c2. apply Abstract_await_invoke_frame.
Qed.

Lemma SkillInteractor_callSkill_dispatches (serviceRequest : SkillRequest)
    (c : SkillContext) :
  dispatches_with_session (SkillInteractor.callSkill serviceRequest c).
Proof.
  split.
  - apply SkillInteractor_callSkill_frame.
  - rewrite SkillInteractor_callSkill_run. cbv zeta.
    callSkill_cases; project; try exact I.
    intros s c2. apply SkillInteractor_invoke_then_frame.
Qed.

Lemma Abstract_callSkillWithIntent_dispatches (intentName : string)
    (slots : value) (requestFilter : option RequestFilter) (c : SkillContext) :
  dispatches_with_session
    (AbstractSkillInteractor.callSkillWithIntent intentName slots
       requestFilter c).
Proof.
  rewrite Abstract_callSkillWithIntent_run. cbv zeta.
  destruct (intentRequest _ intentName) as [built|e];
    [destruct (if negb (nullish slots) then _ else _) as [serviceRequest|e]|].
  - apply dispatches_with_session_pre;
      [apply intent_pre_ok|apply Abstract_callSkill_dispatches].
  - apply dispatches_with_session_throw, intent_pre_ok.
  - apply dispatches_with_session_throw, intent_pre_ok.
Qed.

Lemma SkillInteractor_callSkillWithIntent_dispatches (intentName : string)
    (slots : value) (c : SkillContext) :
  dispatches_with_session
    (SkillInteractor.callSkillWithIntent intentName slots c).
Proof.
  rewrite SkillInteractor_callSkillWithIntent_run. cbv zeta.
  destruct (intentRequest _ intentName) as [built|e];
    [destruct (if negb (nullish slots) then _ else _) as [serviceRequest|e]|].
  - apply dispatches_with_session_pre;
      [apply intent_pre_ok|apply SkillInteractor_callSkill_dispatches].
  - apply dispatches_with_session_throw, intent_pre_ok.
  - apply dispatches_with_session_throw, intent_pre_ok.
Qed.

Lemma endSession_then_silent (s : Settlement) (c2 : SkillContext) :
  events_of
    (bind (AbstractSkillInteractor.await_invoke s)
       AbstractSkillInteractor.endSession_then c2) = [].
Proof.
  rewrite bind_run.
  destruct (Abstract_await_invoke_frame s c2) as (_ & _ & He).
  destruct (AbstractSkillInteractor.await_invoke s c2) as [[[v|e] c3] t];
    unfold events_of in He; simpl in He; subst t; reflexivity.
Qed.

Lemma Abstract_perform_dispatches (op : Operation)
    (requestFilter : option RequestFilter) (c : SkillContext) :
  dispatches_with_session (AbstractSkillInteractor.perform op requestFilter c).
Proof.
  destruct op as [utteranceString| |intentName slots|reason errorData];
    simpl.
  - rewrite Abstract_spoken_run.
    destruct (matched (new_Utterance utteranceString)); cbv zeta.
    + apply Abstract_callSkillWithIntent_dispatches.
    + apply (dispatches_with_session_pre [ConsoleWarn fallbackWarning]);
        [reflexivity|apply Abstract_callSkillWithIntent_dispatches].
  - rewrite Abstract_launched_run.
    destruct (launchRequest c) as [serviceRequest|e]; cbv zeta.
    + apply (dispatches_with_session_pre [BuildRequest LaunchRequest c]);
        [reflexivity|apply Abstract_callSkill_dispatches].
    + now apply dispatches_with_session_throw.
  - rewrite Abstract_intended_run. cbv zeta.
    destruct (Abstract_callSkillWithIntent_dispatches intentName slots
                requestFilter c) as [Hev Hk].
    split; project; [exact Hev|].
    now destruct (result_of _) as [p|e].
  - rewrite Abstract_sessionEnded_run. cbv zeta.
    destruct (diagnostic_fault reason errorData) as [e0|];
      [now apply dispatches_with_session_throw|].
    destruct (sessionEndedRequest c reason errorData) as [serviceRequest|e];
      [|apply dispatches_with_session_throw, sessionEnded_pre_ok].
    destruct (Abstract_callSkill_dispatches serviceRequest requestFilter c)
      as [Hev _].
    split; project;
      [now rewrite forallb_app, sessionEnded_pre_ok, Hev|].
    rewrite Abstract_callSkill_run. cbv zeta.
    callSkill_cases; project; simpl; try exact I.
    intros s c2. apply endSession_then_silent.
Qed.

Lemma SkillInteractor_perform_dispatches (op : Operation) (c : SkillContext) :
  dispatches_with_session (SkillInteractor.perform op c).
Proof.
  destruct op as [utteranceString| |intentName slots|reason errorData];
    simpl.
  - rewrite SkillInteractor_spoken_run.
    destruct (matched (new_Utterance utteranceString)); cbv zeta.
    + apply SkillInteractor_callSkillWithIntent_dispatches.
    + apply (dispatches_with_session_pre [ConsoleWarn fallbackWarning]);
        [reflexivity|apply SkillInteractor_callSkillWithIntent_dispatches].
  - rewrite SkillInteractor_launched_run.
    destruct (launchRequest c) as [serviceRequest|e]; cbv zeta.
    + apply (dispatches_with_session_pre [BuildRequest LaunchRequest c]);
        [reflexivity|apply SkillInteractor_callSkill_dispatches].
    + now apply dispatches_with_session_throw.
  - apply SkillInteractor_callSkillWithIntent_dispatches.
  - rewrite SkillInteractor_sessionEnded_run. cbv zeta.
    destruct (diagnostic_fault reason errorData) as [e0|];
      [now apply dispatches_with_session_throw|].
    destruct (sessionEndedRequest c reason errorData) as [serviceRequest|e];
      [|apply dispatches_with_session_throw, sessionEnded_pre_ok].
    apply dispatches_with_session_pre;
      [apply sessionEnded_pre_ok|apply SkillInteractor_callSkill_dispatches].
Qed.

Lemma Abstract_callSkill_creates_session (serviceRequest : SkillRequest)
    (requestFilter : option RequestFilter) (c : SkillContext) :
  creates_session_then_dispatches serviceRequest requestFilter c
    (AbstractSkillInteractor.callSkill serviceRequest requestFilter c).
Proof.
  unfold creates_session_then_dispatches.
  rewrite Abstract_callSkill_run. unfold ensureSession. cbv zeta.
  callSkill_cases; project; split; try reflexivity.
  exists json. simpl. auto.
Qed.

Lemma SkillInteractor_callSkill_creates_session (serviceRequest : SkillRequest)
    (c : SkillContext) :
  creates_session_then_dispatches serviceRequest None c
    (SkillInteractor.callSkill serviceRequest c).
Proof.
  unfold creates_session_then_dispatches.
  rewrite SkillInteractor_callSkill_run. unfold ensureSession. cbv zeta.
  callSkill_cases; project; split; try reflexivity.
  exists json. simpl. auto.
Qed.

(** C1.  In both revisions, for every public operation ([spoken],
    [launched], [intended], [sessionEnded]): every request that requires a
    session is dispatched on a context whose session is active, and
    [callSkill] creates the fresh session, when one is required and none is
    active, right before it serializes and dispatches. *)
Theorem session_active_at_dispatch (op : Operation)
    (serviceRequest : SkillRequest) (requestFilter : option RequestFilter)
    (c : SkillContext) :
  dispatches_with_session (SkillInteractor.perform op c)
  /\ dispatches_with_session
       (AbstractSkillInteractor.perform op requestFilter c)
  /\ creates_session_then_dispatches serviceRequest None c
       (SkillInteractor.callSkill serviceRequest c)
  /\ creates_session_then_dispatches serviceRequest requestFilter c
       (AbstractSkillInteractor.callSkill serviceRequest requestFilter c).
Proof.
  split; [apply SkillInteractor_perform_dispatches|].
  split; [apply Abstract_perform_dispatches|].
  split; [apply SkillInteractor_callSkill_creates_session|].
  apply Abstract_callSkill_creates_session.
Qed.

End SessionAtDispatch.

(* ================================================================== *)
(** ** The fallback of [spoken] *)

Section Fallback.
Context {E : Collaborators}.

Lemma warnings_app (l1 l2 : list Event) :
  warnings (l1 ++ l2) = (warnings l1 ++ warnings l2)%list.
Proof. apply filter_app. Qed.

Lemma log_or_dispatch_no_warning (evs : list Event) :
  forallb is_log_or_dispatch evs = true -> warnings evs = [].
Proof.
  unfold warnings.
  induction evs as [|e evs IH]; simpl; [reflexivity|].
  intros H. apply andb_true_iff in H as [He Hs].
  destruct e; simpl in *; try discriminate; auto.
Qed.

Lemma intent_pre_no_warning (c c1 : SkillContext) :
  warnings ((if playingNow c then [PlayerSuspend] else [])
            ++ [BuildRequest IntentRequest c1]) = [].
Proof. now destruct (playingNow c). Qed.

Lemma Abstract_callSkillWithIntent_no_warning (intentName : string)
    (slots : value) (requestFilter : option RequestFilter) (c : SkillContext) :
  warnings
    (events_of (AbstractSkillInteractor.callSkillWithIntent intentName slots
                  requestFilter c)) = [].
Proof.
  rewrite Abstract_callSkillWithIntent_run. cbv zeta.
  destruct (intentRequest _ intentName) as [built|e];
    [destruct (if negb (nullish slots) then _ else _) as [serviceRequest|e]|];
    project; try apply intent_pre_no_warning.
  rewrite warnings_app, intent_pre_no_warning. simpl.
  apply log_or_dispatch_no_warning, Abstract_callSkill_frame.
Qed.

Lemma SkillInteractor_callSkillWithIntent_no_warning (intentName : string)
    (slots : value) (c : SkillContext) :
  warnings
    (events_of (SkillInteractor.callSkillWithIntent intentName slots c)) = [].
Proof.
  rewrite SkillInteractor_callSkillWithIntent_run. cbv zeta.
  destruct (intentRequest _ intentName) as [built|e];
    [destruct (if negb (nullish slots) then _ else _) as [serviceRequest|e]|];
    project; try apply intent_pre_no_warning.
  rewrite warnings_app, intent_pre_no_warning. simpl.
  apply log_or_dispatch_no_warning, SkillInteractor_callSkill_frame.
Qed.

Lemma intent_pre_warnings (c : SkillContext) (rest : list Event) :
  warnings rest = [] -> warnings (intent_pre c ++ rest) = [].
Proof.
  intros H. unfold intent_pre.
  now rewrite warnings_app, intent_pre_no_warning, H.
Qed.

(** C4.  In both revisions, when the text matches no utterance and the model
    is well formed, so that the intent request for the default phrase is
    built, takes the slots of the default phrase and is serialized with a
    readable type, [spoken] does not raise an error: it logs the fallback
    warning exactly once, matches the default phrase instead, and dispatches
    the intent request built for the intent and the slots the default phrase
    resolves to, returning a pending promise. *)
Theorem spoken_falls_back_to_default (utteranceString : string)
    (requestFilter : option RequestFilter) (c : SkillContext)
    (built serviceRequest : SkillRequest)
    (json request ty request' ty' : value) :
  matched (new_Utterance utteranceString) = false ->
  let fallback := new_Utterance defaultUtterance_phrase in
  let c1 := suspendIfPlaying c in
  intentRequest c1 (intent fallback) = Ok built ->
  copied_slots (Utterance_toJSON fallback) built c1 = Ok serviceRequest ->
  let c2 := ensureSession (requiresSession serviceRequest) c1 in
  toJSON c2 serviceRequest = Ok json ->
  get json "request" = Ok request ->
  get request "type" = Ok ty ->
  get (applyFilter requestFilter json) "request" = Ok request' ->
  get request' "type" = Ok ty' ->
  (SkillInteractor.spoken utteranceString c =
     (Ok (Awaiting json SkillInteractor.invoke_then),
      c2,
      ConsoleWarn fallbackWarning
      :: (intent_pre c
          ++ [ConsoleLog ("CALLING: " ++ ToString ty);
              Dispatch (requiresSession serviceRequest) c2 json])%list)
   /\ List.length
        (warnings (events_of (SkillInteractor.spoken utteranceString c))) = 1)
  /\ (AbstractSkillInteractor.spoken utteranceString requestFilter c =
        (Ok (Awaiting (applyFilter requestFilter json)
               AbstractSkillInteractor.await_invoke),
         c2,
         ConsoleWarn fallbackWarning
         :: (intent_pre c
             ++ [ConsoleLog ("CALLING: " ++ ToString ty');
                 Dispatch (requiresSession serviceRequest) c2
                   (applyFilter requestFilter json)])%list)
      /\ List.length
           (warnings
              (events_of
                 (AbstractSkillInteractor.spoken utteranceString
                    requestFilter c))) = 1).
Proof.
  intros Hm fallback c1 Hb Hs c2 Hj Hr Ht Hr' Ht'.
  assert (Hold : SkillInteractor.spoken utteranceString c =
     (Ok (Awaiting json SkillInteractor.invoke_then),
      c2,
      ConsoleWarn fallbackWarning
      :: (intent_pre c
          ++ [ConsoleLog ("CALLING: " ++ ToString ty);
              Dispatch (requiresSession serviceRequest) c2 json])%list)).
  { rewrite SkillInteractor_spoken_run, Hm. cbv zeta.
    rewrite SkillInteractor_callSkillWithIntent_run. cbv zeta.
    fold fallback in Hb, Hs |- *. unfold fallbackUtterance.
    fold fallback. fold c1. rewrite Hb.
    unfold copied_slots in Hs. rewrite Hs.
    rewrite SkillInteractor_callSkill_run. cbv zeta.
    fold c2. rewrite Hj, Hr, Ht. reflexivity. }
  assert (Hnew : AbstractSkillInteractor.spoken utteranceString
                   requestFilter c =
     (Ok (Awaiting (applyFilter requestFilter json)
            AbstractSkillInteractor.await_invoke),
      c2,
      ConsoleWarn fallbackWarning
      :: (intent_pre c
          ++ [ConsoleLog ("CALLING: " ++ ToString ty');
              Dispatch (requiresSession serviceRequest) c2
                (applyFilter requestFilter json)])%list)).
  { rewrite Abstract_spoken_run, Hm. cbv zeta.
    rewrite Abstract_callSkillWithIntent_run. cbv zeta.
    unfold fallbackUtterance. fold fallback. fold c1. rewrite Hb.
    unfold copied_slots in Hs.
    change (AbstractSkillInteractor.withSlots (Utterance_toJSON fallback)
              (Object_keys (Utterance_toJSON fallback)))
      with (SkillInteractor.withSlots (Utterance_toJSON fallback)
              (Object_keys (Utterance_toJSON fallback))).
    rewrite Hs.
    rewrite Abstract_callSkill_run. cbv zeta.
    fold c2. rewrite Hj, Hr', Ht'. reflexivity. }
  split; split; try assumption.
  - rewrite Hold. project. unfold warnings at 1. simpl filter.
    fold (warnings (intent_pre c
                    ++ [ConsoleLog ("CALLING: " ++ ToString ty);
                        Dispatch (requiresSession serviceRequest) c2 json])).
    now rewrite intent_pre_warnings.
  - rewrite Hnew. project. unfold warnings at 1. simpl filter.
    fold (warnings (intent_pre c
                    ++ [ConsoleLog ("CALLING: " ++ ToString ty');
                        Dispatch (requiresSession serviceRequest) c2
                          (applyFilter requestFilter json)])).
    now rewrite intent_pre_warnings.
Qed.

(** C9.  In both revisions, when the text matches no utterance the one
    warning [spoken] logs is built after the utterance has been replaced by
    the fallback: it names the fallback utterance twice, as the string form
    of the fallback [Utterance] and as the default phrase, and the text the
    user spoke is not put into it. *)
Theorem fallback_warning_names_fallback_only (utteranceString : string)
    (requestFilter : option RequestFilter) (c : SkillContext) :
  matched (new_Utterance utteranceString) = false ->
  let message :=
    "No intentName matches utterance: "
    ++ Utterance_toString (new_Utterance defaultUtterance_phrase)
    ++ ". Using fallback utterance: " ++ defaultUtterance_phrase in
  warnings (events_of (SkillInteractor.spoken utteranceString c)) =
    [ConsoleWarn message]
  /\ warnings
       (events_of
          (AbstractSkillInteractor.spoken utteranceString requestFilter c)) =
     [ConsoleWarn message].
Proof.
  intros Hm. cbv zeta.
  rewrite SkillInteractor_spoken_run, Abstract_spoken_run, Hm. cbv zeta.
  project. unfold warnings; simpl.
  fold (warnings (events_of
      (SkillInteractor.callSkillWithIntent (intent fallbackUtterance)
         (Utterance_toJSON fallbackUtterance) c))).
  fold (warnings (events_of
      (AbstractSkillInteractor.callSkillWithIntent (intent fallbackUtterance)
         (Utterance_toJSON fallbackUtterance) requestFilter c))).
  rewrite SkillInteractor_callSkillWithIntent_no_warning,
    Abstract_callSkillWithIntent_no_warning.
  split; reflexivity.
Qed.

End Fallback.

(* ================================================================== *)
(** ** When the result of the invocation arrives *)

Section RoundTrip.
Context {E : Collaborators}.

Lemma get_prop (v : value) (k : string) :
  nullish v = false -> get v k = Ok (prop v k).
Proof.
  intros H. unfold prop.
  destruct (get_not_nullish v k H) as [x ->]. reflexivity.
Qed.

Lemma Abstract_callSkill_resume_run (result : value) (c2 : SkillContext) :
  nullish result = false ->
  AbstractSkillInteractor.callSkill_resume result c2 =
    (Ok result,
     afterRoundTrip (endFlag_in_response result)
       (prop result "sessionAttributes") c2,
     []).
Proof.
  intros Hn.
  unfold AbstractSkillInteractor.callSkill_resume, afterRoundTrip,
    endFlag_in_response.
  unfold_js.
  rewrite !(get_prop result) by exact Hn.
  destruct (activeSession c2); simpl; [|reflexivity].
  destruct (truthy result) eqn:Ht; simpl; [|rewrite Ht; reflexivity].
  destruct (truthy (prop result "response")) eqn:Hr; simpl;
    [|rewrite Hr; reflexivity].
  rewrite (get_prop (prop result "response"))
    by (apply truthy_not_nullish; exact Hr).
  simpl.
  now destruct (truthy (prop (prop result "response") "shouldEndSession")).
Qed.

Lemma SkillInteractor_callSkill_then_run (result : value) (c2 : SkillContext) :
  nullish result = false ->
  SkillInteractor.callSkill_then result c2 =
    (Ok VUndefined,
     afterRoundTrip (endFlag_toplevel result)
       (prop result "sessionAttributes") c2,
     []).
Proof.
  intros Hn.
  unfold SkillInteractor.callSkill_then, afterRoundTrip, endFlag_toplevel.
  unfold_js.
  rewrite !(get_prop result) by exact Hn.
  destruct (activeSession c2); simpl; [|reflexivity].
  destruct (truthy result) eqn:Ht; simpl; [|rewrite Ht; reflexivity].
  now destruct (truthy (prop result "shouldEndSession")).
Qed.

(** C6 (as amended).  The continuation of [callSkill] is [invoke_then]
    (first revision) or [await_invoke] (second revision).  On a payload other
    than [undefined] and [null]: when a session is active as the result
    arrives, it is first marked used, then terminated if and only if the
    should-end flag is set, and otherwise its attributes are updated from the
    payload's [sessionAttributes]; when no session is active nothing is
    updated.  The first revision reads the flag at the top level of the
    payload, the second inside its [response] object. *)
Theorem round_trip_updates_session (serviceRequest : SkillRequest)
    (requestFilter : option RequestFilter) (c : SkillContext)
    (result : value) (c2 : SkillContext) :
  nullish result = false ->
  (match result_of (SkillInteractor.callSkill serviceRequest c) with
   | Ok (Awaiting _ k) => k = SkillInteractor.invoke_then
   | _ => True
   end
   /\ SkillInteractor.invoke_then (Resolved result) c2 =
        (Ok VUndefined,
         afterRoundTrip (endFlag_toplevel result)
           (prop result "sessionAttributes") c2,
         []))
  /\ (match result_of
              (AbstractSkillInteractor.callSkill serviceRequest
                 requestFilter c) with
      | Ok (Awaiting _ k) => k = AbstractSkillInteractor.await_invoke
      | _ => True
      end
      /\ AbstractSkillInteractor.await_invoke (Resolved result) c2 =
           (Ok result,
            afterRoundTrip (endFlag_in_response result)
              (prop result "sessionAttributes") c2,
            [])).
Proof.
  intros Hn. repeat split.
  - rewrite SkillInteractor_callSkill_run. cbv zeta.
    callSkill_cases; project; simpl; auto.
  - apply SkillInteractor_callSkill_then_run, Hn.
  - rewrite Abstract_callSkill_run. cbv zeta.
    callSkill_cases; project; simpl; auto.
  - apply Abstract_callSkill_resume_run, Hn.
Qed.

End RoundTrip.

(* ================================================================== *)
(** ** [sessionEnded] *)

Section SessionEndedClaims.
Context {E : Collaborators}.

Lemma SkillInteractor_invoke_then_inactive (s : Settlement)
    (c2 : SkillContext) :
  activeSession c2 = false -> ctx_of (SkillInteractor.invoke_then s c2) = c2.
Proof.
  intros Ha. destruct s as [result|e]; [|reflexivity].
  unfold SkillInteractor.invoke_then, SkillInteractor.callSkill_then.
  unfold_js. now rewrite Ha.
Qed.

Lemma SkillInteractor_sessionEnded_ends_right_away
    (sessionEndedReason : SessionEndedReason) (errorData : value)
    (c : SkillContext) :
  ends_right_away
    (SkillInteractor.sessionEnded sessionEndedReason errorData c).
Proof.
  unfold ends_right_away.
  rewrite SkillInteractor_sessionEnded_run. cbv zeta.
  destruct (diagnostic_fault _ _) as [e0|]; [project; exact I|].
  destruct (sessionEndedRequest c _ _) as [serviceRequest|e];
    [|project; exact I].
  rewrite SkillInteractor_callSkill_run. cbv zeta.
  callSkill_cases; project; try exact I.
  split; [|split].
  - exists (requiresSession serviceRequest),
      (ensureSession (requiresSession serviceRequest) c).
    split; [|reflexivity].
    apply in_or_app. right. simpl. auto.
  - reflexivity.
  - apply SkillInteractor_invoke_then_inactive.
Qed.

Lemma Abstract_sessionEnded_ends_once_settled
    (sessionEndedReason : SessionEndedReason) (errorData : value)
    (requestFilter : option RequestFilter) (c : SkillContext) :
  ends_once_settled
    (AbstractSkillInteractor.sessionEnded sessionEndedReason errorData
       requestFilter c).
Proof.
  unfold ends_once_settled.
  rewrite Abstract_sessionEnded_run. cbv zeta.
  destruct (diagnostic_fault _ _) as [e0|]; [project; exact I|].
  destruct (sessionEndedRequest c _ _) as [serviceRequest|e];
    [|project; exact I].
  rewrite Abstract_callSkill_run. cbv zeta.
  callSkill_cases; project; simpl; try exact I.
  split; [|split].
  - exists (requiresSession serviceRequest).
    apply in_or_app. right. simpl. auto.
  - intros result c2 Hn.
    rewrite bind_run. simpl.
    rewrite (Abstract_callSkill_resume_run result c2 Hn).
    project. split; reflexivity.
  - intros e c2. reflexivity.
Qed.

(** C3 (as amended).  Let the error payload be loggable, the session-ended
    request be built and serialized, and its type be readable for the console
    line.  Then [sessionEnded] builds that request on the context it was
    called on, sends it on the context [callSkill] prepared, and returns a
    pending promise, in both revisions; and it terminates the session
    whatever the response payload says.  The first revision has terminated it
    when the promise is returned, before any reply, and the reply then finds
    nothing to update.  The second revision returns with the session as it
    was sent and terminates it once the round trip has completed, for every
    payload other than [undefined] and [null]; a failed invocation leaves the
    session as it is. *)
Theorem sessionEnded_terminates_session
    (sessionEndedReason : SessionEndedReason) (errorData : value)
    (requestFilter : option RequestFilter) (c : SkillContext)
    (serviceRequest : SkillRequest)
    (json request ty request' ty' : value) :
  diagnostic_fault sessionEndedReason errorData = None ->
  sessionEndedRequest c sessionEndedReason errorData = Ok serviceRequest ->
  let c1 := ensureSession (requiresSession serviceRequest) c in
  toJSON c1 serviceRequest = Ok json ->
  get json "request" = Ok request ->
  get request "type" = Ok ty ->
  get (applyFilter requestFilter json) "request" = Ok request' ->
  get request' "type" = Ok ty' ->
  let settled :=
    fun s =>
      bind (AbstractSkillInteractor.await_invoke s)
        AbstractSkillInteractor.endSession_then in
  (SkillInteractor.sessionEnded sessionEndedReason errorData c =
     (Ok (Awaiting json SkillInteractor.invoke_then),
      endSession c1,
      (sessionEnded_pre sessionEndedReason errorData c
       ++ [ConsoleLog ("CALLING: " ++ ToString ty);
           Dispatch (requiresSession serviceRequest) c1 json])%list)
   /\ activeSession (endSession c1) = false
   /\ (forall (s : Settlement) (c2 : SkillContext),
         activeSession c2 = false ->
         SkillInteractor.invoke_then s c2 =
           (match s with
            | Resolved _ => Ok VUndefined
            | RejectedBy e => Throw e
            end, c2, [])))
  /\ (AbstractSkillInteractor.sessionEnded sessionEndedReason errorData
        requestFilter c =
        (Ok (Awaiting (applyFilter requestFilter json) settled),
         c1,
         (sessionEnded_pre sessionEndedReason errorData c
          ++ [ConsoleLog ("CALLING: " ++ ToString ty');
              Dispatch (requiresSession serviceRequest) c1
                (applyFilter requestFilter json)])%list)
      /\ (forall (result : value) (c2 : SkillContext),
            nullish result = false ->
            settled (Resolved result) c2 =
              (Ok VUndefined,
               endSession
                 (afterRoundTrip (endFlag_in_response result)
                    (prop result "sessionAttributes") c2),
               [])
            /\ activeSession (ctx_of (settled (Resolved result) c2)) = false)
      /\ (forall (e : Err) (c2 : SkillContext),
            settled (RejectedBy e) c2 = (Throw e, c2, []))).
Proof.
  intros Hd Hb c1 Hj Hr Ht Hr' Ht' settled.
  split; [split; [|split]|split; [|split]].
  - rewrite SkillInteractor_sessionEnded_run, Hd, Hb. cbv zeta.
    rewrite SkillInteractor_callSkill_run. cbv zeta.
    fold c1. rewrite Hj, Hr, Ht. reflexivity.
  - reflexivity.
  - intros s c2 Ha. destruct s as [result|e]; [|reflexivity].
    unfold SkillInteractor.invoke_then, SkillInteractor.callSkill_then.
    unfold_js. now rewrite Ha.
  - rewrite Abstract_sessionEnded_run, Hd, Hb. cbv zeta.
    rewrite Abstract_callSkill_run. cbv zeta.
    fold c1. rewrite Hj, Hr', Ht'. reflexivity.
  - intros result c2 Hn. unfold settled.
    rewrite bind_run. simpl AbstractSkillInteractor.await_invoke.
    rewrite (Abstract_callSkill_resume_run result c2 Hn).
    split; reflexivity.
  - intros e c2. reflexivity.
Qed.

(** When the error payload can be logged, and for every reason,
    [sessionEnded] builds the request with [sessionEndedRequest] on the
    context it was called on and hands it to [callSkill]; the error payload of
    reason ERROR adds one line to the console, in front of the trace, and
    changes neither the request that is built nor the context nor what
    [callSkill] does with it. *)
Lemma sessionEnded_error_is_only_logged
    (sessionEndedReason : SessionEndedReason) (errorData : value)
    (requestFilter : option RequestFilter) (c : SkillContext) :
  diagnostic_fault sessionEndedReason errorData = None ->
  let diagnostic :=
    if isERROR sessionEndedReason
    then [ConsoleError ("SessionEndedRequest:" ++ String "010" ""
                        ++ stringified errorData)]
    else [] in
  let built := sessionEndedRequest c sessionEndedReason errorData in
  SkillInteractor.sessionEnded sessionEndedReason errorData c =
    match built with
    | Throw e =>
        (Throw e, c, (diagnostic ++ [BuildRequest SessionEndedRequest c])%list)
    | Ok serviceRequest =>
        let run := SkillInteractor.callSkill serviceRequest c in
        (result_of run,
         match result_of run with
         | Ok _ => endSession (ctx_of run)
         | Throw _ => ctx_of run
         end,
         (diagnostic ++ BuildRequest SessionEndedRequest c :: events_of run)%list)
    end
  /\ AbstractSkillInteractor.sessionEnded sessionEndedReason errorData
       requestFilter c =
     match built with
     | Throw e =>
         (Throw e, c, (diagnostic ++ [BuildRequest SessionEndedRequest c])%list)
     | Ok serviceRequest =>
         let run := AbstractSkillInteractor.callSkill serviceRequest
                      requestFilter c in
         (match result_of run with
          | Ok promise =>
              Ok (then_ promise AbstractSkillInteractor.endSession_then)
          | Throw e => Throw e
          end,
          ctx_of run,
          (diagnostic ++ BuildRequest SessionEndedRequest c :: events_of run)%list)
     end.
Proof.
  intros Hd. cbv zeta.
  rewrite SkillInteractor_sessionEnded_run, Abstract_sessionEnded_run, Hd.
  unfold sessionEnded_pre, sessionEndedDiagnostic. cbv zeta.
  destruct (sessionEndedRequest c _ _) as [serviceRequest|e];
    rewrite <- ?app_assoc; split; reflexivity.
Qed.

(** When [JSON.stringify] throws on the error payload of reason ERROR,
    [sessionEnded] throws that error before anything is built or sent, in
    both revisions. *)
Lemma sessionEnded_aborts_on_unserializable
    (sessionEndedReason : SessionEndedReason) (errorData : value)
    (requestFilter : option RequestFilter) (c : SkillContext) (e : Err) :
  diagnostic_fault sessionEndedReason errorData = Some e ->
  SkillInteractor.sessionEnded sessionEndedReason errorData c =
    (Throw e, c, [])
  /\ AbstractSkillInteractor.sessionEnded sessionEndedReason errorData
       requestFilter c = (Throw e, c, []).
Proof.
  intros Hd.
  now rewrite SkillInteractor_sessionEnded_run, Abstract_sessionEnded_run, Hd.
Qed.

End SessionEndedClaims.

(* ================================================================== *)
(** ** The request filter *)

Section RequestFilterClaims.
Context {E : Collaborators}.

(** C7.  When a request filter is given, [callSkill] of the second revision
    runs it on the serialized envelope, and the collaborator is invoked with
    the envelope exactly as the filter left it, so that every property reads
    there as the filter set it.  The dispatch is reached whenever the
    serialization succeeds and the console line can read [request.type] from
    the filtered envelope.  The value the filter returns is ignored: two
    filters that leave the same envelope give the same run. *)
Theorem request_filter_applied_before_invoke (serviceRequest : SkillRequest)
    (filter filter' : RequestFilter) (c : SkillContext) :
  let run := AbstractSkillInteractor.callSkill serviceRequest (Some filter) c in
  let c1 := ensureSession (requiresSession serviceRequest) c in
  match result_of run with
  | Ok (Awaiting requestJSON k) =>
      exists json,
        toJSON c1 serviceRequest = Ok json
        /\ requestJSON = fst (filter json)
        /\ (forall key, get requestJSON key = get (fst (filter json)) key)
        /\ In (Dispatch (requiresSession serviceRequest) c1 (fst (filter json)))
             (events_of run)
  | _ => True
  end
  /\ (forall json request ty,
        toJSON c1 serviceRequest = Ok json ->
        get (fst (filter json)) "request" = Ok request ->
        get request "type" = Ok ty ->
        run =
          (Ok (Awaiting (fst (filter json))
                 AbstractSkillInteractor.await_invoke),
           c1,
           [ConsoleLog ("CALLING: " ++ ToString ty);
            Dispatch (requiresSession serviceRequest) c1 (fst (filter json))]))
  /\ ((forall requestJSON, fst (filter' requestJSON) = fst (filter requestJSON)) ->
      AbstractSkillInteractor.callSkill serviceRequest (Some filter') c = run).
Proof.
  cbv zeta. rewrite !Abstract_callSkill_run. unfold applyFilter. cbv zeta.
  split; [|split].
  - callSkill_cases; project; try exact I.
    exists json. simpl. repeat split; auto.
  - intros json request ty Hj Hr Ht. now rewrite Hj, Hr, Ht.
  - intros Hsame.
    destruct (toJSON _ serviceRequest) as [json|e]; [|reflexivity].
    now rewrite Hsame.
Qed.

(** [intended] of the second revision never throws: a fault of the intent
    call comes back as a rejected promise. *)
Lemma Abstract_intended_never_throws (intentName : string) (slots : value)
    (requestFilter : option RequestFilter) (c : SkillContext) :
  exists p,
    result_of (AbstractSkillInteractor.intended intentName slots
                 requestFilter c) = Ok p
    /\ (forall e,
          result_of (AbstractSkillInteractor.callSkillWithIntent intentName
                       slots requestFilter c) = Throw e ->
          p = Rejected e).
Proof.
  rewrite Abstract_intended_run. cbv zeta. project.
  destruct (result_of _) as [p|e].
  - exists p. split; [reflexivity|discriminate].
  - exists (Rejected e). split; [reflexivity|].
    intros e' He. now inversion He.
Qed.

End RequestFilterClaims.

(* ================================================================== *)
(** ** The continuation of every public operation *)

Section Continuations.
Context {E : Collaborators}.

(** The continuation of the second revision's [sessionEnded]: the body of
    [callSkill] after the [await], then the [.then] callback. *)
Lemma then_await (requestJSON : value) :
  then_ (Awaiting requestJSON AbstractSkillInteractor.await_invoke)
    AbstractSkillInteractor.endSession_then =
  Awaiting requestJSON
    (fun s =>
       bind (AbstractSkillInteractor.await_invoke s)
         AbstractSkillInteractor.endSession_then).
Proof. reflexivity. Qed.

Lemma SkillInteractor_callSkill_continuation (serviceRequest : SkillRequest)
    (c : SkillContext) :
  match result_of (SkillInteractor.callSkill serviceRequest c) with
  | Ok (Awaiting _ k) => k = SkillInteractor.invoke_then
  | Ok (Rejected _) => False
  | Throw _ => True
  end.
Proof.
  rewrite SkillInteractor_callSkill_run. cbv zeta.
  callSkill_cases; project; simpl; auto.
Qed.

Lemma Abstract_callSkill_continuation (serviceRequest : SkillRequest)
    (requestFilter : option RequestFilter) (c : SkillContext) :
  match result_of
          (AbstractSkillInteractor.callSkill serviceRequest requestFilter c)
  with
  | Ok (Awaiting _ k) => k = AbstractSkillInteractor.await_invoke
  | Ok (Rejected _) => True
  | Throw _ => False
  end.
Proof.
  rewrite Abstract_callSkill_run. cbv zeta.
  callSkill_cases; project; simpl; auto.
Qed.

Lemma SkillInteractor_callSkillWithIntent_continuation (intentName : string)
    (slots : value) (c : SkillContext) :
  match result_of (SkillInteractor.callSkillWithIntent intentName slots c) with
  | Ok (Awaiting _ k) => k = SkillInteractor.invoke_then
  | Ok (Rejected _) => False
  | Throw _ => True
  end.
Proof.
  rewrite SkillInteractor_callSkillWithIntent_run. cbv zeta.
  destruct (intentRequest _ intentName) as [built|e];
    [destruct (if negb (nullish slots) then _ else _) as [serviceRequest|e]|];
    project; try exact I.
  apply SkillInteractor_callSkill_continuation.
Qed.

Lemma Abstract_callSkillWithIntent_continuation (intentName : string)
    (slots : value) (requestFilter : option RequestFilter) (c : SkillContext) :
  match result_of
          (AbstractSkillInteractor.callSkillWithIntent intentName slots
             requestFilter c) with
  | Ok (Awaiting _ k) => k = AbstractSkillInteractor.await_invoke
  | _ => True
  end.
Proof.
  rewrite Abstract_callSkillWithIntent_run. cbv zeta.
  destruct (intentRequest _ intentName) as [built|e];
    [destruct (if negb (nullish slots) then _ else _) as [serviceRequest|e]|];
    project; try exact I.
  pose proof (Abstract_callSkill_continuation serviceRequest requestFilter
                (suspendIfPlaying c)) as H.
  destruct (result_of _) as [[e|requestJSON k]|e]; auto.
Qed.

(** In the first revision every operation waits with [invoke_then]. *)
Lemma SkillInteractor_perform_continuation (op : Operation)
    (c : SkillContext) :
  match result_of (SkillInteractor.perform op c) with
  | Ok (Awaiting _ k) => k = SkillInteractor.invoke_then
  | Ok (Rejected _) => False
  | Throw _ => True
  end.
Proof.
  destruct op as [utteranceString| |intentName slots|reason errorData]; simpl.
  - rewrite SkillInteractor_spoken_run.
    destruct (matched (new_Utterance utteranceString)); cbv zeta; project;
      apply SkillInteractor_callSkillWithIntent_continuation.
  - rewrite SkillInteractor_launched_run.
    destruct (launchRequest c) as [serviceRequest|e]; cbv zeta; project;
      [apply SkillInteractor_callSkill_continuation|exact I].
  - apply SkillInteractor_callSkillWithIntent_continuation.
  - rewrite SkillInteractor_sessionEnded_run. cbv zeta.
    destruct (diagnostic_fault reason errorData) as [e0|]; [exact I|].
    destruct (sessionEndedRequest c reason errorData) as [serviceRequest|e];
      project; [apply SkillInteractor_callSkill_continuation|exact I].
Qed.

(** In the second revision every operation waits with [await_invoke];
    [sessionEnded] adds its [.then] callback. *)
Lemma Abstract_perform_continuation (op : Operation)
    (requestFilter : option RequestFilter) (c : SkillContext) :
  match result_of (AbstractSkillInteractor.perform op requestFilter c) with
  | Ok (Awaiting _ k) =>
      match op with
      | SessionEnded _ _ =>
          k = (fun s =>
                 bind (AbstractSkillInteractor.await_invoke s)
                   AbstractSkillInteractor.endSession_then)
      | _ => k = AbstractSkillInteractor.await_invoke
      end
  | _ => True
  end.
Proof.
  destruct op as [utteranceString| |intentName slots|reason errorData]; simpl.
  - rewrite Abstract_spoken_run.
    destruct (matched (new_Utterance utteranceString)); cbv zeta; project;
      apply Abstract_callSkillWithIntent_continuation.
  - rewrite Abstract_launched_run.
    destruct (launchRequest c) as [serviceRequest|e]; cbv zeta; project;
      [|exact I].
    pose proof (Abstract_callSkill_continuation serviceRequest requestFilter
                  c) as H.
    destruct (result_of _) as [[e|requestJSON k]|e]; auto.
  - rewrite Abstract_intended_run. cbv zeta. project.
    pose proof (Abstract_callSkillWithIntent_continuation intentName slots
                  requestFilter c) as H.
    destruct (result_of _) as [[e|requestJSON k]|e]; auto.
  - rewrite Abstract_sessionEnded_run. cbv zeta.
    destruct (diagnostic_fault reason errorData) as [e0|]; [exact I|].
    destruct (sessionEndedRequest c reason errorData) as [serviceRequest|e];
      project; [|exact I].
    pose proof (Abstract_callSkill_continuation serviceRequest requestFilter
                  c) as H.
    destruct (result_of _) as [[e|requestJSON k]|e]; simpl; auto.
    now subst k.
Qed.

(** X5.  In both revisions and for every public operation, when the
    collaborator fails the promise of the operation is rejected with the very
    same error, and the context is left exactly as the failure found it:
    nothing is marked used, ended or logged.  In particular [sessionEnded] of
    the second revision does not terminate the session then. *)
Theorem invocation_failure_passes_through (op : Operation)
    (requestFilter : option RequestFilter) (c : SkillContext) :
  passes_failure_on (SkillInteractor.perform op c)
  /\ passes_failure_on (AbstractSkillInteractor.perform op requestFilter c).
Proof.
  unfold passes_failure_on. split.
  - pose proof (SkillInteractor_perform_continuation op c) as H.
    destruct (result_of _) as [[e|requestJSON k]|e]; auto.
    subst k. reflexivity.
  - pose proof (Abstract_perform_continuation op requestFilter c) as H.
    destruct (result_of _) as [[e|requestJSON k]|e]; auto.
    destruct op; subst k; reflexivity.
Qed.

(** X6.  What the promise of an operation is fulfilled with, for a payload
    other than [undefined] and [null].  In the first revision every promise
    is fulfilled with [undefined]: the payload never reaches the caller.  In
    the second revision the promise of [spoken], [launched] and [intended] is
    fulfilled with the payload itself, and the promise of [sessionEnded] with
    [undefined], its session terminated.  In both, the session update is the
    one of [callSkill], applied to the context the result arrives on. *)
Theorem promise_fulfilled_with (op : Operation)
    (requestFilter : option RequestFilter) (c : SkillContext)
    (result : value) (c2 : SkillContext) :
  nullish result = false ->
  match result_of (SkillInteractor.perform op c) with
  | Ok (Awaiting _ k) =>
      k (Resolved result) c2 =
        (Ok VUndefined,
         afterRoundTrip (endFlag_toplevel result)
           (prop result "sessionAttributes") c2,
         [])
  | _ => True
  end
  /\ match result_of (AbstractSkillInteractor.perform op requestFilter c) with
     | Ok (Awaiting _ k) =>
         k (Resolved result) c2 =
           match op with
           | SessionEnded _ _ =>
               (Ok VUndefined,
                endSession
                  (afterRoundTrip (endFlag_in_response result)
                     (prop result "sessionAttributes") c2),
                [])
           | _ =>
               (Ok result,
                afterRoundTrip (endFlag_in_response result)
                  (prop result "sessionAttributes") c2,
                [])
           end
     | _ => True
     end.
Proof.
  intros Hn. split.
  - pose proof (SkillInteractor_perform_continuation op c) as H.
    destruct (result_of _) as [[e|requestJSON k]|e]; auto.
    subst k. apply SkillInteractor_callSkill_then_run, Hn.
  - pose proof (Abstract_perform_continuation op requestFilter c) as H.
    destruct (result_of _) as [[e|requestJSON k]|e]; auto.
    destruct op; subst k;
      try (apply Abstract_callSkill_resume_run, Hn).
    rewrite bind_run. simpl.
    rewrite (Abstract_callSkill_resume_run result c2 Hn).
    reflexivity.
Qed.

(** X7.  The payload [undefined] or [null].  In both revisions, when a
    session is active as such a payload arrives, the session is marked used
    and then the read of [result.sessionAttributes] throws: the promise is
    rejected with that TypeError, and the session is neither terminated nor
    are its attributes changed.  When no session is active nothing is read:
    the promise is fulfilled and the context is unchanged. *)
Theorem nullish_payload_throws_when_active (result : value)
    (c2 : SkillContext) :
  nullish result = true ->
  exists e,
    get result "sessionAttributes" = Throw e
    /\ SkillInteractor.invoke_then (Resolved result) c2 =
         (if activeSession c2
          then (Throw e, with_session (used (session c2)) c2, [])
          else (Ok VUndefined, c2, []))
    /\ AbstractSkillInteractor.await_invoke (Resolved result) c2 =
         (if activeSession c2
          then (Throw e, with_session (used (session c2)) c2, [])
          else (Ok result, c2, [])).
Proof.
  intros Hn.
  unfold SkillInteractor.invoke_then, SkillInteractor.callSkill_then,
    AbstractSkillInteractor.await_invoke,
    AbstractSkillInteractor.callSkill_resume.
  unfold_js.
  destruct result; try discriminate; simpl; eexists; (split; [reflexivity|]);
    destruct (activeSession c2); split; reflexivity.
Qed.

End Continuations.

(* ================================================================== *)
(** ** Intents and slots *)

Section IntentsAndSlots.
Context {E : Collaborators}.

(** X1.  In both revisions, when the text matches an utterance, [spoken] is
    the intent call for the intent and the slots of that utterance, and it
    logs no warning. *)
Theorem spoken_matched_is_intent_call (utteranceString : string)
    (requestFilter : option RequestFilter) (c : SkillContext) :
  matched (new_Utterance utteranceString) = true ->
  let utterance := new_Utterance utteranceString in
  (SkillInteractor.spoken utteranceString c =
     SkillInteractor.callSkillWithIntent (intent utterance)
       (Utterance_toJSON utterance) c
   /\ warnings (events_of (SkillInteractor.spoken utteranceString c)) = [])
  /\ (AbstractSkillInteractor.spoken utteranceString requestFilter c =
        AbstractSkillInteractor.callSkillWithIntent (intent utterance)
          (Utterance_toJSON utterance) requestFilter c
      /\ warnings
           (events_of
              (AbstractSkillInteractor.spoken utteranceString requestFilter
                 c)) = []).
Proof.
  intros Hm. cbv zeta.
  rewrite SkillInteractor_spoken_run, Abstract_spoken_run, Hm.
  repeat split.
  - apply SkillInteractor_callSkillWithIntent_no_warning.
  - apply Abstract_callSkillWithIntent_no_warning.
Qed.

(** X2.  In both revisions, [intended] with slots that are [undefined],
    [null] or a value without properties of its own (the empty object, a
    number, a boolean) makes no call to [withSlot] and runs exactly as
    [intended] without slots. *)
Theorem intended_without_slots (intentName : string) (slots : value)
    (requestFilter : option RequestFilter) (c : SkillContext) :
  nullish slots = true \/ Object_keys slots = [] ->
  SkillInteractor.intended intentName slots c =
    SkillInteractor.intended intentName VUndefined c
  /\ AbstractSkillInteractor.intended intentName slots requestFilter c =
       AbstractSkillInteractor.intended intentName VUndefined requestFilter c.
Proof.
  intros H.
  assert (Hold : SkillInteractor.callSkillWithIntent intentName slots c =
                 SkillInteractor.callSkillWithIntent intentName VUndefined c).
  { rewrite !SkillInteractor_callSkillWithIntent_run. cbv zeta.
    destruct (intentRequest _ intentName) as [built|e]; [|reflexivity].
    destruct H as [H|H]; [now rewrite H|].
    rewrite H. simpl. now destruct (nullish slots). }
  assert (Hnew : AbstractSkillInteractor.callSkillWithIntent intentName slots
                   requestFilter c =
                 AbstractSkillInteractor.callSkillWithIntent intentName
                   VUndefined requestFilter c).
  { rewrite !Abstract_callSkillWithIntent_run. cbv zeta.
    destruct (intentRequest _ intentName) as [built|e]; [|reflexivity].
    destruct H as [H|H]; [now rewrite H|].
    rewrite H. simpl. now destruct (nullish slots). }
  split; [exact Hold|].
  rewrite !Abstract_intended_run. cbv zeta. now rewrite Hnew.
Qed.

Lemma lookup_NoDup (fields : list (string * value)) (k : string) (v : value) :
  NoDup (map fst fields) -> In (k, v) fields -> lookup k fields = v.
Proof.
  induction fields as [|[k' v'] rest IH]; simpl; [contradiction|].
  intros Hnd Hin. inversion Hnd as [|? ? Hnotin Hrest]; subst.
  destruct (String.eqb k k') eqn:Hk.
  - apply String.eqb_eq in Hk. subst k'.
    destruct Hin as [Heq|Hin]; [now inversion Heq|].
    exfalso. apply Hnotin.
    change k with (fst (k, v)). now apply in_map.
  - destruct Hin as [Heq|Hin].
    + inversion Heq; subst. now rewrite String.eqb_refl in Hk.
    + now apply IH.
Qed.

Lemma SkillInteractor_withSlots_each (all : list (string * value)) :
  forall (rest : list (string * value)) (serviceRequest : SkillRequest)
         (c : SkillContext),
    (forall k v, In (k, v) rest -> lookup k all = v) ->
    result_of
      (SkillInteractor.withSlots (VObj all) (map fst rest) serviceRequest c) =
      withSlot_each c rest serviceRequest.
Proof.
  induction rest as [|[k v] rest IH]; intros serviceRequest c Hall;
    [reflexivity|].
  simpl. unfold_js. simpl.
  rewrite (Hall k v) by (left; reflexivity).
  destruct (withSlot c serviceRequest k v) as [r|e]; [|reflexivity].
  rewrite SkillInteractor_withSlots_pure. project. simpl.
  apply IH. intros k0 v0 Hin. apply Hall. now right.
Qed.

Lemma Abstract_withSlots_each (all : list (string * value)) :
  forall (rest : list (string * value)) (serviceRequest : SkillRequest)
         (c : SkillContext),
    (forall k v, In (k, v) rest -> lookup k all = v) ->
    result_of
      (AbstractSkillInteractor.withSlots (VObj all) (map fst rest)
         serviceRequest c) =
      withSlot_each c rest serviceRequest.
Proof.
  induction rest as [|[k v] rest IH]; intros serviceRequest c Hall;
    [reflexivity|].
  simpl. unfold_js. simpl.
  rewrite (Hall k v) by (left; reflexivity).
  destruct (withSlot c serviceRequest k v) as [r|e]; [|reflexivity].
  rewrite Abstract_withSlots_pure. project. simpl.
  apply IH. intros k0 v0 Hin. apply Hall. now right.
Qed.

(** X3.  In both revisions, an intent call with a slot object whose names
    are distinct first suspends the player if it is playing and builds the
    intent request, then hands every slot to [withSlot] with its own value,
    in the order of the object's properties, and calls [callSkill] with the
    request so obtained.  A fault of [intentRequest] or of one [withSlot]
    is thrown at once: the remaining slots are not copied and nothing is
    dispatched. *)
Theorem slots_copied_in_order (intentName : string)
    (fields : list (string * value)) (requestFilter : option RequestFilter)
    (c : SkillContext) :
  NoDup (map fst fields) ->
  let c1 := suspendIfPlaying c in
  SkillInteractor.callSkillWithIntent intentName (VObj fields) c =
    match intentRequest c1 intentName with
    | Throw e => (Throw e, c1, intent_pre c)
    | Ok built =>
        match withSlot_each c1 fields built with
        | Throw e => (Throw e, c1, intent_pre c)
        | Ok serviceRequest =>
            let run := SkillInteractor.callSkill serviceRequest c1 in
            (result_of run, ctx_of run, (intent_pre c ++ events_of run)%list)
        end
    end
  /\ AbstractSkillInteractor.callSkillWithIntent intentName (VObj fields)
       requestFilter c =
     match intentRequest c1 intentName with
     | Throw e => (Throw e, c1, intent_pre c)
     | Ok built =>
         match withSlot_each c1 fields built with
         | Throw e => (Throw e, c1, intent_pre c)
         | Ok serviceRequest =>
             let run := AbstractSkillInteractor.callSkill serviceRequest
                          requestFilter c1 in
             (result_of run, ctx_of run, (intent_pre c ++ events_of run)%list)
         end
     end.
Proof.
  intros Hnd. cbv zeta.
  rewrite SkillInteractor_callSkillWithIntent_run,
    Abstract_callSkillWithIntent_run.
  unfold intent_pre, Object_keys. cbv zeta. simpl negb. cbv iota. simpl entries.
  split.
  - destruct (intentRequest _ intentName) as [built|e]; [|reflexivity].
    rewrite SkillInteractor_withSlots_each; [reflexivity|].
    intros k v. now apply lookup_NoDup.
  - destruct (intentRequest _ intentName) as [built|e]; [|reflexivity].
    rewrite Abstract_withSlots_each; [reflexivity|].
    intros k v. now apply lookup_NoDup.
Qed.

End IntentsAndSlots.

(* ================================================================== *)
(** ** One request per operation *)

Section OneRequest.
Context {E : Collaborators}.

Lemma dispatches_app (l1 l2 : list Event) :
  dispatches (l1 ++ l2) = dispatches l1 + dispatches l2.
Proof. unfold dispatches. now rewrite filter_app, length_app. Qed.

Lemma calling_logs_app (l1 l2 : list Event) :
  calling_logs (l1 ++ l2) = calling_logs l1 + calling_logs l2.
Proof. unfold calling_logs. now rewrite filter_app, length_app. Qed.

Lemma dispatches_once_pre (pre : list Event) (r : Result Promise)
    (c' : SkillContext) (run : Result Promise * SkillContext * list Event) :
  dispatches pre = 0 -> calling_logs pre = 0 ->
  awaiting r = awaiting (result_of run) ->
  dispatches_once run ->
  dispatches_once (r, c', (pre ++ events_of run)%list).
Proof.
  intros Hd Hl Ha [H1 H2]. unfold dispatches_once. project.
  now rewrite dispatches_app, calling_logs_app, Hd, Hl, Ha.
Qed.

Lemma dispatches_once_throw (e : Err) (c' : SkillContext) (pre : list Event) :
  dispatches pre = 0 -> calling_logs pre = 0 ->
  dispatches_once (Throw e, c', pre).
Proof. intros Hd Hl. unfold dispatches_once. project. simpl. now rewrite Hd, Hl. Qed.

Lemma intent_pre_silent (c c1 : SkillContext) :
  dispatches ((if playingNow c then [PlayerSuspend] else [])
              ++ [BuildRequest IntentRequest c1]) = 0
  /\ calling_logs ((if playingNow c then [PlayerSuspend] else [])
                   ++ [BuildRequest IntentRequest c1]) = 0.
Proof. now destruct (playingNow c). Qed.

Lemma sessionEnded_pre_silent (sessionEndedReason : SessionEndedReason)
    (errorData : value) (c : SkillContext) :
  dispatches (sessionEnded_pre sessionEndedReason errorData c) = 0
  /\ calling_logs (sessionEnded_pre sessionEndedReason errorData c) = 0.
Proof. unfold sessionEnded_pre. now destruct (isERROR sessionEndedReason). Qed.

Lemma SkillInteractor_callSkill_once (serviceRequest : SkillRequest)
    (c : SkillContext) :
  dispatches_once (SkillInteractor.callSkill serviceRequest c).
Proof.
  rewrite SkillInteractor_callSkill_run. cbv zeta.
  callSkill_cases; unfold dispatches_once; project; split; reflexivity.
Qed.

Lemma Abstract_callSkill_once (serviceRequest : SkillRequest)
    (requestFilter : option RequestFilter) (c : SkillContext) :
  dispatches_once
    (AbstractSkillInteractor.callSkill serviceRequest requestFilter c).
Proof.
  rewrite Abstract_callSkill_run. cbv zeta.
  callSkill_cases; unfold dispatches_once; project; split; reflexivity.
Qed.

Lemma SkillInteractor_callSkillWithIntent_once (intentName : string)
    (slots : value) (c : SkillContext) :
  dispatches_once (SkillInteractor.callSkillWithIntent intentName slots c).
Proof.
  rewrite SkillInteractor_callSkillWithIntent_run. cbv zeta.
  destruct (intent_pre_silent c (suspendIfPlaying c)) as [Hd Hl].
  destruct (intentRequest _ intentName) as [built|e];
    [destruct (if negb (nullish slots) then _ else _) as [serviceRequest|e]|];
    try (now apply dispatches_once_throw).
  apply dispatches_once_pre; auto. apply SkillInteractor_callSkill_once.
Qed.

Lemma Abstract_callSkillWithIntent_once (intentName : string)
    (slots : value) (requestFilter : option RequestFilter) (c : SkillContext) :
  dispatches_once
    (AbstractSkillInteractor.callSkillWithIntent intentName slots
       requestFilter c).
Proof.
  rewrite Abstract_callSkillWithIntent_run. cbv zeta.
  destruct (intent_pre_silent c (suspendIfPlaying c)) as [Hd Hl].
  destruct (intentRequest _ intentName) as [built|e];
    [destruct (if negb (nullish slots) then _ else _) as [serviceRequest|e]|];
    try (now apply dispatches_once_throw).
  apply dispatches_once_pre; auto. apply Abstract_callSkill_once.
Qed.

(** X4.  In both revisions a public operation that does not call
    [suspend()] on the player ([launched], [sessionEnded], and an intent call
    while no player is playing) sends at most one request to the
    collaborator: exactly one when the promise it returns is pending, none
    when it throws or returns a rejected promise; and it writes the
    "CALLING: ..." line once per request sent.  What [suspend()] itself may
    send through the interactor belongs to the player, whose source is not
    at hand, and is no part of this count. *)
Theorem one_request_per_operation (op : Operation)
    (requestFilter : option RequestFilter) (c : SkillContext) :
  suspends_player op c = false ->
  dispatches_once (SkillInteractor.perform op c)
  /\ dispatches_once (AbstractSkillInteractor.perform op requestFilter c).
Proof.
  intros _.
  split.
  - destruct op as [utteranceString| |intentName slots|reason errorData];
      simpl.
    + rewrite SkillInteractor_spoken_run.
      destruct (matched (new_Utterance utteranceString)); cbv zeta.
      * apply SkillInteractor_callSkillWithIntent_once.
      * apply (dispatches_once_pre [ConsoleWarn fallbackWarning]); auto.
        apply SkillInteractor_callSkillWithIntent_once.
    + rewrite SkillInteractor_launched_run.
      destruct (launchRequest c) as [serviceRequest|e]; cbv zeta.
      * apply (dispatches_once_pre [BuildRequest LaunchRequest c]); auto.
        apply SkillInteractor_callSkill_once.
      * now apply dispatches_once_throw.
    + apply SkillInteractor_callSkillWithIntent_once.
    + rewrite SkillInteractor_sessionEnded_run. cbv zeta.
      destruct (diagnostic_fault reason errorData) as [e0|];
        [now apply dispatches_once_throw|].
      destruct (sessionEnded_pre_silent reason errorData c) as [Hd Hl].
      destruct (sessionEndedRequest c reason errorData)
        as [serviceRequest|e]; [|now apply dispatches_once_throw].
      apply dispatches_once_pre; auto. apply SkillInteractor_callSkill_once.
  - destruct op as [utteranceString| |intentName slots|reason errorData];
      simpl.
    + rewrite Abstract_spoken_run.
      destruct (matched (new_Utterance utteranceString)); cbv zeta.
      * apply Abstract_callSkillWithIntent_once.
      * apply (dispatches_once_pre [ConsoleWarn fallbackWarning]); auto.
        apply Abstract_callSkillWithIntent_once.
    + rewrite Abstract_launched_run.
      destruct (launchRequest c) as [serviceRequest|e]; cbv zeta.
      * apply (dispatches_once_pre [BuildRequest LaunchRequest c]); auto.
        apply Abstract_callSkill_once.
      * now apply dispatches_once_throw.
    + rewrite Abstract_intended_run. cbv zeta.
      apply (dispatches_once_pre []); auto.
      * now destruct (result_of _) as [[e|requestJSON k]|e].
      * apply Abstract_callSkillWithIntent_once.
    + rewrite Abstract_sessionEnded_run. cbv zeta.
      destruct (diagnostic_fault reason errorData) as [e0|];
        [now apply dispatches_once_throw|].
      destruct (sessionEnded_pre_silent reason errorData c) as [Hd Hl].
      destruct (sessionEndedRequest c reason errorData)
        as [serviceRequest|e]; [|now apply dispatches_once_throw].
      apply dispatches_once_pre; auto.
      * now destruct (result_of _) as [[e|requestJSON k]|e].
      * apply Abstract_callSkill_once.
Qed.

End OneRequest.

(* ================================================================== *)
(** ** Launch, session end and the audio player *)

Section NoSuspension.
Context {E : Collaborators}.

Lemma endSession_then_audioPlayer (s : Settlement) (c2 : SkillContext) :
  audioPlayer
    (ctx_of
       (bind (AbstractSkillInteractor.await_invoke s)
          AbstractSkillInteractor.endSession_then c2)) = audioPlayer c2.
Proof.
  rewrite bind_run.
  destruct (Abstract_await_invoke_frame s c2) as (Ha & _ & _).
  destruct (AbstractSkillInteractor.await_invoke s c2) as [[[v|e] c3] t];
    unfold ctx_of in *; simpl in *; exact Ha.
Qed.

Lemma sessionEnded_pre_no_suspension (sessionEndedReason : SessionEndedReason)
    (errorData : value) (c : SkillContext) :
  suspensions (sessionEnded_pre sessionEndedReason errorData c) = 0.
Proof. unfold sessionEnded_pre. now destruct (isERROR sessionEndedReason). Qed.

Lemma SkillInteractor_callSkill_untouched (serviceRequest : SkillRequest)
    (c : SkillContext) :
  audioPlayer_untouched c (SkillInteractor.callSkill serviceRequest c).
Proof.
  destruct (SkillInteractor_callSkill_frame serviceRequest c)
    as (Hc & Hl & _ & _).
  split; [now rewrite Hc, ensureSession_audioPlayer|].
  split; [now apply log_or_dispatch_no_suspension|].
  pose proof (SkillInteractor_callSkill_continuation serviceRequest c) as H.
  destruct (result_of _) as [[e|requestJSON k]|e]; auto.
  subst k. intros s c2. apply SkillInteractor_invoke_then_frame.
Qed.

Lemma Abstract_callSkill_untouched (serviceRequest : SkillRequest)
    (requestFilter : option RequestFilter) (c : SkillContext) :
  audioPlayer_untouched c
    (AbstractSkillInteractor.callSkill serviceRequest requestFilter c).
Proof.
  destruct (Abstract_callSkill_frame serviceRequest requestFilter c)
    as (Hc & Hl & _ & _ & _).
  split; [now rewrite Hc, ensureSession_audioPlayer|].
  split; [now apply log_or_dispatch_no_suspension|].
  pose proof (Abstract_callSkill_continuation serviceRequest requestFilter c)
    as H.
  destruct (result_of _) as [[e|requestJSON k]|e]; auto.
  subst k. intros s c2. apply Abstract_await_invoke_frame.
Qed.

(** X8.  In both revisions [launched] and [sessionEnded] never touch the
    audio player, whatever its state: a player that is PLAYING keeps playing
    through a launch and through the end of the session; only intent calls
    suspend it. *)
Theorem launch_and_session_end_keep_player
    (sessionEndedReason : SessionEndedReason) (errorData : value)
    (requestFilter : option RequestFilter) (c : SkillContext) :
  audioPlayer_untouched c (SkillInteractor.launched c)
  /\ audioPlayer_untouched c
       (SkillInteractor.sessionEnded sessionEndedReason errorData c)
  /\ audioPlayer_untouched c (AbstractSkillInteractor.launched requestFilter c)
  /\ audioPlayer_untouched c
       (AbstractSkillInteractor.sessionEnded sessionEndedReason errorData
          requestFilter c).
Proof.
  split; [|split; [|split]].
  - rewrite SkillInteractor_launched_run.
    destruct (launchRequest c) as [serviceRequest|e]; cbv zeta;
      [|now repeat split].
    destruct (SkillInteractor_callSkill_untouched serviceRequest c)
      as (Ha & Hs & Hk).
    unfold audioPlayer_untouched. project.
    split; [exact Ha|split; [exact Hs|exact Hk]].
  - rewrite SkillInteractor_sessionEnded_run. cbv zeta.
    destruct (diagnostic_fault _ _) as [e0|]; [now repeat split|].
    destruct (sessionEndedRequest c _ _) as [serviceRequest|e].
    + destruct (SkillInteractor_callSkill_untouched serviceRequest c)
        as (Ha & Hs & Hk).
      unfold audioPlayer_untouched. project.
      rewrite suspensions_app, Hs, sessionEnded_pre_no_suspension.
      repeat split; auto.
      now destruct (result_of _) as [p|e].
    + unfold audioPlayer_untouched. project.
      now rewrite sessionEnded_pre_no_suspension.
  - rewrite Abstract_launched_run.
    destruct (launchRequest c) as [serviceRequest|e]; cbv zeta;
      [|now repeat split].
    destruct (Abstract_callSkill_untouched serviceRequest requestFilter c)
      as (Ha & Hs & Hk).
    unfold audioPlayer_untouched. project.
    split; [exact Ha|split; [exact Hs|exact Hk]].
  - rewrite Abstract_sessionEnded_run. cbv zeta.
    destruct (diagnostic_fault _ _) as [e0|]; [now repeat split|].
    destruct (sessionEndedRequest c _ _) as [serviceRequest|e].
    + destruct (Abstract_callSkill_untouched serviceRequest requestFilter c)
        as (Ha & Hs & _).
      unfold audioPlayer_untouched. project.
      rewrite suspensions_app, Hs, sessionEnded_pre_no_suspension, Ha.
      repeat split; auto.
      pose proof (Abstract_callSkill_continuation serviceRequest
                    requestFilter c) as H.
      destruct (result_of _) as [[e|requestJSON k]|e]; simpl; auto.
      subst k. intros s c2. apply endSession_then_audioPlayer.
    + unfold audioPlayer_untouched. project.
      now rewrite sessionEnded_pre_no_suspension.
Qed.

End NoSuspension.

(* ================================================================== *)
(** ** The two revisions side by side *)

Section Revisions.
Context {E : Collaborators}.

Lemma callSkill_revisions (serviceRequest : SkillRequest) (c : SkillContext) :
  let old := SkillInteractor.callSkill serviceRequest c in
  let new := AbstractSkillInteractor.callSkill serviceRequest None c in
  events_of old = events_of new
  /\ ctx_of old = ctx_of new
  /\ envelope_of (result_of old) = envelope_of (result_of new)
  /\ fault_of (result_of old) = fault_of (result_of new)
  /\ awaiting (result_of old) = awaiting (result_of new)
  /\ (awaiting (result_of old) = false ->
      exists e, result_of old = Throw e).
Proof.
  cbv zeta.
  rewrite SkillInteractor_callSkill_run, Abstract_callSkill_run.
  unfold applyFilter. cbv zeta.
  callSkill_cases; project; simpl; repeat split; eauto; discriminate.
Qed.

Lemma callSkillWithIntent_revisions (intentName : string) (slots : value)
    (c : SkillContext) :
  let old := SkillInteractor.callSkillWithIntent intentName slots c in
  let new := AbstractSkillInteractor.callSkillWithIntent intentName slots
               None c in
  events_of old = events_of new
  /\ ctx_of old = ctx_of new
  /\ envelope_of (result_of old) = envelope_of (result_of new)
  /\ fault_of (result_of old) = fault_of (result_of new).
Proof.
  cbv zeta.
  rewrite SkillInteractor_callSkillWithIntent_run,
    Abstract_callSkillWithIntent_run.
  cbv zeta.
  destruct (intentRequest _ intentName) as [built|e]; [|now repeat split].
  destruct (nullish slots); simpl.
  - destruct (callSkill_revisions built (suspendIfPlaying c))
      as (He & Hc & Hv & Hf & _).
    project. now rewrite He, Hc, Hv, Hf.
  - change (AbstractSkillInteractor.withSlots slots (Object_keys slots) built
              (suspendIfPlaying c))
      with (SkillInteractor.withSlots slots (Object_keys slots) built
              (suspendIfPlaying c)).
    destruct (result_of (SkillInteractor.withSlots _ _ _ _))
      as [serviceRequest|e]; [|now repeat split].
    destruct (callSkill_revisions serviceRequest (suspendIfPlaying c))
      as (He & Hc & Hv & Hf & _).
    project. now rewrite He, Hc, Hv, Hf.
Qed.

(** X9.  Without a request filter the two revisions do the same work on
    every public operation: the same trace (console lines, suspension,
    request built, request sent), the same envelope sent, and, when nothing
    is sent, the same fault, which the first revision throws where the second
    may deliver it as a rejected promise.  The context is the same too,
    except that the first revision has already terminated the session when
    [sessionEnded] returns a pending promise. *)
Theorem revisions_agree_without_filter (op : Operation) (c : SkillContext) :
  let old := SkillInteractor.perform op c in
  let new := AbstractSkillInteractor.perform op None c in
  events_of old = events_of new
  /\ envelope_of (result_of old) = envelope_of (result_of new)
  /\ fault_of (result_of old) = fault_of (result_of new)
  /\ ctx_of old =
       match op with
       | SessionEnded _ _ =>
           if awaiting (result_of new) then endSession (ctx_of new)
           else ctx_of new
       | _ => ctx_of new
       end.
Proof.
  cbv zeta.
  destruct op as [utteranceString| |intentName slots|reason errorData]; simpl.
  - rewrite SkillInteractor_spoken_run, Abstract_spoken_run.
    destruct (matched (new_Utterance utteranceString)); cbv zeta.
    + destruct (callSkillWithIntent_revisions
                  (intent (new_Utterance utteranceString))
                  (Utterance_toJSON (new_Utterance utteranceString)) c)
        as (He & Hc & Hv & Hf).
      now repeat split.
    + destruct (callSkillWithIntent_revisions (intent fallbackUtterance)
                  (Utterance_toJSON fallbackUtterance) c)
        as (He & Hc & Hv & Hf).
      project. now rewrite He, Hc, Hv, Hf.
  - rewrite SkillInteractor_launched_run, Abstract_launched_run.
    destruct (launchRequest c) as [serviceRequest|e]; [|now repeat split].
    destruct (callSkill_revisions serviceRequest c)
      as (He & Hc & Hv & Hf & _).
    cbv zeta. project. now rewrite He, Hc, Hv, Hf.
  - rewrite Abstract_intended_run. cbv zeta. project.
    destruct (callSkillWithIntent_revisions intentName slots c)
      as (He & Hc & Hv & Hf).
    unfold SkillInteractor.intended.
    rewrite He, Hc, Hv, Hf.
    now destruct (result_of (AbstractSkillInteractor.callSkillWithIntent
                               intentName slots None c))
      as [[e|requestJSON k]|e].
  - rewrite SkillInteractor_sessionEnded_run, Abstract_sessionEnded_run.
    cbv zeta.
    destruct (diagnostic_fault reason errorData) as [e0|];
      [now repeat split|].
    destruct (sessionEndedRequest c reason errorData) as [serviceRequest|e];
      [|now repeat split].
    destruct (callSkill_revisions serviceRequest c)
      as (He & Hc & Hv & Hf & Ha & Ht).
    project. rewrite He, Hc.
    destruct (result_of (SkillInteractor.callSkill serviceRequest c))
      as [[e|requestJSON k]|e];
      destruct (result_of
                  (AbstractSkillInteractor.callSkill serviceRequest None c))
      as [[e'|requestJSON' k']|e']; simpl in *;
      try discriminate; repeat split; auto.
    all: destruct (Ht eq_refl) as [e0 He0]; discriminate.
Qed.

End Revisions.

(* ================================================================== *)
(** ** From one request to the next *)

Section Conversation.
Context {E : Collaborators}.

Lemma ensureSession_of_active (b : bool) (c : SkillContext) :
  activeSession c = true -> ensureSession b c = c.
Proof. unfold ensureSession. intros ->. now rewrite andb_false_r. Qed.

Lemma ensureSession_of_inactive (c : SkillContext) :
  activeSession c = false -> ensureSession true c = newSession c.
Proof. unfold ensureSession. now intros ->. Qed.

Lemma next_session (ends : bool) (sessionAttributes : value)
    (c2 : SkillContext) :
  activeSession c2 = true ->
  let c4 := ensureSession true (afterRoundTrip ends sessionAttributes c2) in
  activeSession c4 = true
  /\ isNew (session c4) = ends
  /\ id (session c4) = (if ends then sessionsCreated c2 else id (session c2))
  /\ attributes (session c4) =
       (if ends then VObj []
        else attributes (updateAttributes sessionAttributes (session c2))).
Proof.
  destruct c2 as [[i a n b] p app k]. unfold activeSession. simpl.
  intros ->. unfold afterRoundTrip, ensureSession, activeSession. simpl.
  destruct ends; simpl; [now repeat split|].
  destruct sessionAttributes; simpl; now repeat split.
Qed.

(** X10.  From one request to the next, in both revisions.  Let a round trip
    complete on an active session with a payload other than [undefined] and
    [null], and let [callSkill] then run for a request that requires a
    session.  That request is sent on an active session which is new exactly
    when the payload ended the previous one: otherwise it is the same session
    (same identifier), no longer new, with the attributes the payload left;
    after an end it is a fresh session with empty attributes. *)
Theorem next_request_after_round_trip (serviceRequest : SkillRequest)
    (requestFilter : option RequestFilter) (result : value)
    (c2 : SkillContext) :
  nullish result = false ->
  activeSession c2 = true ->
  requiresSession serviceRequest = true ->
  let old :=
    ctx_of (SkillInteractor.callSkill serviceRequest
              (ctx_of (SkillInteractor.invoke_then (Resolved result) c2))) in
  let new :=
    ctx_of (AbstractSkillInteractor.callSkill serviceRequest requestFilter
              (ctx_of (AbstractSkillInteractor.await_invoke (Resolved result)
                         c2))) in
  (activeSession old = true
   /\ isNew (session old) = endFlag_toplevel result
   /\ id (session old) =
        (if endFlag_toplevel result then sessionsCreated c2
         else id (session c2))
   /\ attributes (session old) =
        (if endFlag_toplevel result then VObj []
         else attributes
                (updateAttributes (prop result "sessionAttributes")
                   (session c2))))
  /\ (activeSession new = true
      /\ isNew (session new) = endFlag_in_response result
      /\ id (session new) =
           (if endFlag_in_response result then sessionsCreated c2
            else id (session c2))
      /\ attributes (session new) =
           (if endFlag_in_response result then VObj []
            else attributes
                   (updateAttributes (prop result "sessionAttributes")
                      (session c2)))).
Proof.
  intros Hn Ha Hr. cbv zeta.
  destruct (SkillInteractor_callSkill_frame serviceRequest
              (ctx_of (SkillInteractor.invoke_then (Resolved result) c2)))
    as (Hold & _).
  destruct (Abstract_callSkill_frame serviceRequest requestFilter
              (ctx_of (AbstractSkillInteractor.await_invoke (Resolved result)
                         c2)))
    as (Hnew & _).
  rewrite Hold, Hnew, Hr. simpl SkillInteractor.invoke_then.
  simpl AbstractSkillInteractor.await_invoke.
  rewrite (SkillInteractor_callSkill_then_run result c2 Hn),
    (Abstract_callSkill_resume_run result c2 Hn).
  project. split; apply next_session, Ha.
Qed.

Lemma SkillInteractor_callSkill_on (serviceRequest : SkillRequest)
    (c0 : SkillContext) :
  Forall (dispatched_on (ensureSession (requiresSession serviceRequest) c0))
    (events_of (SkillInteractor.callSkill serviceRequest c0)).
Proof.
  rewrite SkillInteractor_callSkill_run. cbv zeta.
  callSkill_cases; project; repeat constructor.
Qed.

Lemma Abstract_callSkill_on (serviceRequest : SkillRequest)
    (requestFilter : option RequestFilter) (c0 : SkillContext) :
  Forall (dispatched_on (ensureSession (requiresSession serviceRequest) c0))
    (events_of
       (AbstractSkillInteractor.callSkill serviceRequest requestFilter c0)).
Proof.
  rewrite Abstract_callSkill_run. cbv zeta.
  callSkill_cases; project; repeat constructor.
Qed.

Lemma sessionEnded_pre_on (sessionEndedReason : SessionEndedReason)
    (errorData : value) (c c0 : SkillContext) :
  Forall (dispatched_on c0) (sessionEnded_pre sessionEndedReason errorData c).
Proof.
  unfold sessionEnded_pre.
  destruct (isERROR sessionEndedReason); repeat constructor.
Qed.

(** [sessionEnded] on a context without an active session, for a
    session-ended request that requires one and an error payload that can be
    logged: in both revisions a brand-new session is created just to carry
    the request, which is sent on it.  The first revision has terminated that
    session when it returns the pending promise; the second returns with the
    new session still active. *)
Theorem sessionEnded_without_session
    (sessionEndedReason : SessionEndedReason) (errorData : value)
    (requestFilter : option RequestFilter) (c : SkillContext)
    (serviceRequest : SkillRequest) :
  diagnostic_fault sessionEndedReason errorData = None ->
  activeSession c = false ->
  sessionEndedRequest c sessionEndedReason errorData = Ok serviceRequest ->
  requiresSession serviceRequest = true ->
  let old := SkillInteractor.sessionEnded sessionEndedReason errorData c in
  let new :=
    AbstractSkillInteractor.sessionEnded sessionEndedReason errorData
      requestFilter c in
  ctx_of new = newSession c
  /\ ctx_of old =
       (if awaiting (result_of old) then endSession (newSession c)
        else newSession c)
  /\ Forall (dispatched_on (newSession c)) (events_of old)
  /\ Forall (dispatched_on (newSession c)) (events_of new).
Proof.
  intros Hd Ha Hb Hr. cbv zeta.
  rewrite SkillInteractor_sessionEnded_run, Abstract_sessionEnded_run, Hd, Hb.
  cbv zeta. project.
  destruct (SkillInteractor_callSkill_frame serviceRequest c) as (Hold & _).
  destruct (Abstract_callSkill_frame serviceRequest requestFilter c)
    as (Hnew & _).
  pose proof (SkillInteractor_callSkill_on serviceRequest c) as Fold.
  pose proof (Abstract_callSkill_on serviceRequest requestFilter c) as Fnew.
  rewrite Hold, Hnew, Hr, (ensureSession_of_inactive c Ha).
  rewrite Hr, (ensureSession_of_inactive c Ha) in Fold, Fnew.
  repeat split.
  - pose proof (SkillInteractor_callSkill_continuation serviceRequest c) as H.
    now destruct (result_of _) as [[e|requestJSON k]|e].
  - apply Forall_app. split; [apply sessionEnded_pre_on|exact Fold].
  - apply Forall_app. split; [apply sessionEnded_pre_on|exact Fnew].
Qed.

Lemma SkillInteractor_callSkillWithIntent_on (intentName : string)
    (slots : value) (c0 : SkillContext) :
  activeSession c0 = true -> playingNow c0 = false ->
  Forall (dispatched_on c0)
    (events_of (SkillInteractor.callSkillWithIntent intentName slots c0)).
Proof.
  intros Ha Hp.
  rewrite SkillInteractor_callSkillWithIntent_run. cbv zeta.
  rewrite (suspendIfPlaying_idle c0 Hp), Hp.
  destruct (intentRequest _ intentName) as [built|e];
    [destruct (if negb (nullish slots) then _ else _) as [serviceRequest|e]|];
    project; try (repeat constructor).
  pose proof (SkillInteractor_callSkill_on serviceRequest c0) as F.
  now rewrite (ensureSession_of_active _ c0 Ha) in F.
Qed.

Lemma Abstract_callSkillWithIntent_on (intentName : string)
    (slots : value) (requestFilter : option RequestFilter)
    (c0 : SkillContext) :
  activeSession c0 = true -> playingNow c0 = false ->
  Forall (dispatched_on c0)
    (events_of
       (AbstractSkillInteractor.callSkillWithIntent intentName slots
          requestFilter c0))
  /\ ctx_of
       (AbstractSkillInteractor.callSkillWithIntent intentName slots
          requestFilter c0) = c0.
Proof.
  intros Ha Hp.
  rewrite Abstract_callSkillWithIntent_run. cbv zeta.
  rewrite (suspendIfPlaying_idle c0 Hp), Hp.
  destruct (intentRequest _ intentName) as [built|e];
    [destruct (if negb (nullish slots) then _ else _) as [serviceRequest|e]|];
    project; try (split; [repeat constructor|reflexivity]).
  pose proof (Abstract_callSkill_on serviceRequest requestFilter c0) as F.
  destruct (Abstract_callSkill_frame serviceRequest requestFilter c0)
    as (Hc & _).
  rewrite (ensureSession_of_active _ c0 Ha) in F, Hc.
  split; [|exact Hc]. simpl. constructor; [exact I|exact F].
Qed.

(** X12.  On a context with an active session and no playing player, such
    as the one the constructor leaves, no public operation changes anything
    before its request is sent: in both revisions the request is sent on the
    very context the operation was called on, no session is created and the
    player is not suspended; in the second revision the context is still
    unchanged when the promise is returned. *)
Theorem request_sent_on_callers_context (op : Operation)
    (requestFilter : option RequestFilter) (c0 : SkillContext) :
  activeSession c0 = true ->
  playingNow c0 = false ->
  Forall (dispatched_on c0) (events_of (SkillInteractor.perform op c0))
  /\ Forall (dispatched_on c0)
       (events_of (AbstractSkillInteractor.perform op requestFilter c0))
  /\ ctx_of (AbstractSkillInteractor.perform op requestFilter c0) = c0
  /\ (forall appID : option string,
        activeSession (new_SkillInteractor appID) = true
        /\ playingNow (new_SkillInteractor appID) = false
        /\ isNew (session (new_SkillInteractor appID)) = true).
Proof.
  intros Ha Hp.
  split; [|split; [|split; [|now repeat split]]].
  - destruct op as [utteranceString| |intentName slots|reason errorData];
      simpl.
    + rewrite SkillInteractor_spoken_run.
      destruct (matched (new_Utterance utteranceString)); cbv zeta; project;
        [|constructor; [exact I|]];
        now apply SkillInteractor_callSkillWithIntent_on.
    + rewrite SkillInteractor_launched_run.
      pose proof (SkillInteractor_callSkill_on) as F.
      destruct (launchRequest c0) as [serviceRequest|e]; cbv zeta; project;
        [|repeat constructor].
      specialize (F serviceRequest c0).
      rewrite (ensureSession_of_active _ c0 Ha) in F.
      constructor; [exact I|exact F].
    + now apply SkillInteractor_callSkillWithIntent_on.
    + rewrite SkillInteractor_sessionEnded_run. cbv zeta.
      destruct (diagnostic_fault reason errorData) as [e0|];
        [constructor|].
      destruct (sessionEndedRequest c0 reason errorData)
        as [serviceRequest|e]; project; [|apply sessionEnded_pre_on].
      apply Forall_app. split; [apply sessionEnded_pre_on|].
      pose proof (SkillInteractor_callSkill_on serviceRequest c0) as F.
      now rewrite (ensureSession_of_active _ c0 Ha) in F.
  - destruct op as [utteranceString| |intentName slots|reason errorData];
      simpl.
    + rewrite Abstract_spoken_run.
      destruct (matched (new_Utterance utteranceString)); cbv zeta; project;
        [|constructor; [exact I|]];
        now apply Abstract_callSkillWithIntent_on.
    + rewrite Abstract_launched_run.
      pose proof (Abstract_callSkill_on) as F.
      destruct (launchRequest c0) as [serviceRequest|e]; cbv zeta; project;
        [|repeat constructor].
      specialize (F serviceRequest requestFilter c0).
      rewrite (ensureSession_of_active _ c0 Ha) in F.
      constructor; [exact I|exact F].
    + rewrite Abstract_intended_run. cbv zeta. project.
      now apply Abstract_callSkillWithIntent_on.
    + rewrite Abstract_sessionEnded_run. cbv zeta.
      destruct (diagnostic_fault reason errorData) as [e0|];
        [constructor|].
      destruct (sessionEndedRequest c0 reason errorData)
        as [serviceRequest|e]; project; [|apply sessionEnded_pre_on].
      apply Forall_app. split; [apply sessionEnded_pre_on|].
      pose proof (Abstract_callSkill_on serviceRequest requestFilter c0) as F.
      now rewrite (ensureSession_of_active _ c0 Ha) in F.
  - destruct op as [utteranceString| |intentName slots|reason errorData];
      simpl.
    + rewrite Abstract_spoken_run.
      destruct (matched (new_Utterance utteranceString)); cbv zeta; project;
        now apply Abstract_callSkillWithIntent_on.
    + rewrite Abstract_launched_run.
      destruct (launchRequest c0) as [serviceRequest|e]; cbv zeta; project;
        [|reflexivity].
      destruct (Abstract_callSkill_frame serviceRequest requestFilter c0)
        as (Hc & _).
      now rewrite Hc, ensureSession_of_active.
    + rewrite Abstract_intended_run. cbv zeta. project.
      now apply Abstract_callSkillWithIntent_on.
    + rewrite Abstract_sessionEnded_run. cbv zeta.
      destruct (diagnostic_fault reason errorData) as [e0|];
        [reflexivity|].
      destruct (sessionEndedRequest c0 reason errorData)
        as [serviceRequest|e]; project; [|reflexivity].
      destruct (Abstract_callSkill_frame serviceRequest requestFilter c0)
        as (Hc & _).
      now rewrite Hc, ensureSession_of_active.
Qed.

End Conversation.

(* ================================================================== *)
(** ** The sample skill at work *)

Import HelloSkill.

(** For C4: "xyzzy" matches nothing in the sample model, whose default
    phrase "help" resolves to [AMAZON.HelpIntent]; the call logs one warning
    and dispatches that intent. *)
Lemma spoken_falls_back_to_default_witness :
  matched (Collaborators := helloSkill) (new_Utterance "xyzzy") = false
  /\ intentRequest (Collaborators := helloSkill) (suspendIfPlaying startPlaying)
       "AMAZON.HelpIntent" = Ok helpRequest
  /\ copied_slots (E := helloSkill) (VObj []) helpRequest
       (suspendIfPlaying startPlaying) = Ok helpRequest
  /\ awaiting
       (result_of
          (AbstractSkillInteractor.spoken (E := helloSkill) "xyzzy"
             (Some stamp) startPlaying)) = true
  /\ List.length
       (warnings
          (events_of
             (AbstractSkillInteractor.spoken (E := helloSkill) "xyzzy"
                (Some stamp) startPlaying))) = 1.
Proof.
  split; [reflexivity|split; [reflexivity|split; [reflexivity|]]].
  destruct (spoken_falls_back_to_default (E := helloSkill) "xyzzy"
              (Some stamp) startPlaying helpRequest helpRequest
              _ _ _ _ _
              eq_refl eq_refl eq_refl eq_refl eq_refl eq_refl eq_refl eq_refl)
    as [_ [Hrun Hwarn]].
  split; [|exact Hwarn].
  rewrite Hrun. reflexivity.
Defined.

(** For C9: the warning for "xyzzy" is the one for the default phrase. *)
Lemma fallback_warning_names_fallback_only_witness :
  matched (Collaborators := helloSkill) (new_Utterance "xyzzy") = false
  /\ warnings
       (events_of (SkillInteractor.spoken (E := helloSkill) "xyzzy" start)) =
     [ConsoleWarn
        "No intentName matches utterance: [object Object]. Using fallback utterance: help"].
Proof.
  split; [reflexivity|].
  destruct (fallback_warning_names_fallback_only (E := helloSkill) "xyzzy"
              None start eq_refl) as [H _].
  exact H.
Defined.

(** For C6 (as amended): a payload that ends the session through its
    response object. *)
Lemma round_trip_updates_session_witness :
  nullish ending = false
  /\ AbstractSkillInteractor.await_invoke (Resolved ending) start =
       (Ok ending,
        afterRoundTrip (endFlag_in_response ending)
          (prop ending "sessionAttributes") start,
        []).
Proof.
  split; [reflexivity|].
  destruct (round_trip_updates_session (E := helloSkill) launch None start
              ending start eq_refl) as [_ [_ H]].
  exact H.
Defined.

(** Against C6 as stated: in the second revision a payload whose top-level
    flag is set does not terminate the session (its attributes are updated
    instead), and a payload without a top-level flag terminates it through
    its response object. *)
Lemma toplevel_flag_does_not_end_session :
  match result_of
          (AbstractSkillInteractor.callSkill (E := helloSkill) launch None
             start) with
  | Ok (Awaiting _ k) =>
      truthy (prop flagged "shouldEndSession") = true
      /\ session (ctx_of (k (Resolved flagged) start)) =
           {| id := 0; attributes := VObj [("turn", VNum 1)];
              isNew := false; isActive := true |}
      /\ truthy (prop ending "shouldEndSession") = false
      /\ activeSession (ctx_of (k (Resolved ending) start)) = false
  | _ => False
  end.
Proof. vm_compute. repeat split; reflexivity. Qed.

(** Against C3 as stated: in the first revision the session is terminated
    when [sessionEnded] returns its promise, while the invocation is still
    pending. *)
Lemma sessionEnded_ends_before_reply :
  let run := SkillInteractor.sessionEnded (E := helloSkill) USER_INITIATED
               VUndefined start in
  activeSession start = true
  /\ awaiting (result_of run) = true
  /\ activeSession (ctx_of run) = false.
Proof. vm_compute. repeat split; reflexivity. Qed.

(** C5.  In the sample model the intent "PlayIntent" is not declared and the
    request builder throws.  [intended] of the first revision lets the fault
    escape as a thrown error; [intended] of the second revision returns it as
    a rejected promise. *)
Theorem intended_fault_escapes :
  result_of
    (SkillInteractor.intended (E := helloSkill) "PlayIntent" VUndefined start) =
    Throw (Error "Interaction model has no intentName named: PlayIntent")
  /\ result_of
       (AbstractSkillInteractor.intended (E := helloSkill) "PlayIntent"
          VUndefined None start) =
     Ok (Rejected
           (Error "Interaction model has no intentName named: PlayIntent")).
Proof. split; vm_compute; reflexivity. Qed.

(** The payload [undefined]: the session is marked used, then the read of
    [result.sessionAttributes] throws, in both revisions; the promise of
    [sessionEnded] of the second revision is rejected and the session stays
    active. *)
Lemma undefined_payload_throws :
  result_of (SkillInteractor.invoke_then (Resolved VUndefined) start) =
    Throw (TypeError "Cannot read property 'sessionAttributes' of undefined")
  /\ result_of (AbstractSkillInteractor.await_invoke (Resolved VUndefined)
                  start) =
     Throw (TypeError "Cannot read property 'sessionAttributes' of undefined")
  /\ match result_of
             (AbstractSkillInteractor.sessionEnded (E := helloSkill)
                USER_INITIATED VUndefined None start) with
     | Ok (Awaiting _ k) =>
         session (ctx_of (k (Resolved VUndefined) start)) =
           {| id := 0; attributes := VObj []; isNew := false;
              isActive := true |}
     | _ => False
     end.
Proof. vm_compute. repeat split; reflexivity. Qed.

(** The request filter [stamp]: the collaborator receives the stamped
    envelope. *)
Lemma stamped_envelope_is_dispatched :
  match result_of
          (AbstractSkillInteractor.launched (E := helloSkill) (Some stamp)
             startEnded) with
  | Ok (Awaiting requestJSON _) =>
      get requestJSON "stamped" = Ok (VBool true)
      /\ prop (prop requestJSON "session") "id" = VNum 1
      /\ prop (prop requestJSON "session") "new" = VBool true
  | _ => False
  end.
Proof. vm_compute. repeat split; reflexivity. Qed.

(** The concrete scenario of the spec: "hello" is dispatched as
    [HelloIntent] with no slots and no warning; "xyzzy" falls back and is
    dispatched as the intent of the default phrase "help". *)
Lemma hello_and_fallback_are_dispatched :
  match result_of
          (AbstractSkillInteractor.spoken (E := helloSkill) "hello" None
             start) with
  | Ok (Awaiting requestJSON _) =>
      prop (prop requestJSON "request") "intent" =
        VObj [("name", VStr "HelloIntent"); ("slots", VObj [])]
  | _ => False
  end
  /\ warnings
       (events_of
          (AbstractSkillInteractor.spoken (E := helloSkill) "hello" None
             start)) = []
  /\ match result_of
             (AbstractSkillInteractor.spoken (E := helloSkill) "xyzzy" None
                start) with
     | Ok (Awaiting requestJSON _) =>
         prop (prop requestJSON "request") "intent" =
           VObj [("name", VStr "AMAZON.HelpIntent"); ("slots", VObj [])]
     | _ => False
     end.
Proof. vm_compute. repeat split; reflexivity. Qed.

(** For X1: "hello" matches in the sample model. *)
Lemma spoken_matched_is_intent_call_witness :
  matched (Collaborators := helloSkill) (new_Utterance "hello") = true
  /\ warnings
       (events_of
          (AbstractSkillInteractor.spoken (E := helloSkill) "hello"
             (Some stamp) startPlaying)) = [].
Proof.
  split; [reflexivity|].
  destruct (spoken_matched_is_intent_call (E := helloSkill) "hello"
              (Some stamp) startPlaying eq_refl) as [_ [_ H]].
  exact H.
Defined.

(** For X2: the empty slot object. *)
Lemma intended_without_slots_witness :
  (nullish (VObj []) = true \/ Object_keys (VObj []) = [])
  /\ AbstractSkillInteractor.intended (E := helloSkill) "HelloIntent"
       (VObj []) None start =
     AbstractSkillInteractor.intended (E := helloSkill) "HelloIntent"
       VUndefined None start.
Proof.
  split; [right; reflexivity|].
  destruct (intended_without_slots (E := helloSkill) "HelloIntent" (VObj [])
              None start (or_intror eq_refl)) as [_ H].
  exact H.
Defined.

Lemma twoSlots_distinct : NoDup (map fst twoSlots).
Proof.
  constructor; [simpl; intros [H|[]]; discriminate|].
  constructor; [intros []|constructor].
Defined.

(** For X3: two slots, copied in order onto the request that is sent. *)
Lemma slots_copied_in_order_witness :
  NoDup (map fst twoSlots)
  /\ option_map (fun requestJSON =>
                   prop (prop (prop requestJSON "request") "intent") "slots")
       (envelope_of
          (result_of
             (SkillInteractor.callSkillWithIntent (E := helloSkill)
                "HelloIntent" (VObj twoSlots) start))) =
     Some (VObj twoSlots).
Proof.
  split; [exact twoSlots_distinct|].
  destruct (slots_copied_in_order (E := helloSkill) "HelloIntent" twoSlots
              None start twoSlots_distinct) as [H _].
  rewrite H. reflexivity.
Defined.

(** For X6: a launch whose payload comes back to the caller. *)
Lemma promise_fulfilled_with_witness :
  nullish ending = false
  /\ match result_of
             (AbstractSkillInteractor.perform (E := helloSkill) Launched None
                start) with
     | Ok (Awaiting _ k) => result_of (k (Resolved ending) start) = Ok ending
     | _ => False
     end.
Proof.
  split; [reflexivity|].
  destruct (promise_fulfilled_with (E := helloSkill) Launched None start
              ending start eq_refl) as [_ H].
  simpl in H. simpl. rewrite H. reflexivity.
Defined.

(** For X7: the payload [null] on an active session. *)
Lemma nullish_payload_throws_when_active_witness :
  nullish VNull = true
  /\ AbstractSkillInteractor.await_invoke (Resolved VNull) start =
       (Throw (TypeError "Cannot read property 'sessionAttributes' of null"),
        with_session (used (session start)) start, []).
Proof.
  split; [reflexivity|].
  destruct (nullish_payload_throws_when_active VNull start eq_refl)
    as (e & He & _ & H).
  rewrite H. simpl in He. inversion He. reflexivity.
Defined.

(** For X10: after a payload that does not end the session, the next request
    goes out on the same session, no longer new. *)
Lemma next_request_after_round_trip_witness :
  nullish flagged = false
  /\ activeSession start = true
  /\ requiresSession (Collaborators := helloSkill) launch = true
  /\ isNew
       (session
          (ctx_of
             (AbstractSkillInteractor.callSkill (E := helloSkill) launch None
                (ctx_of
                   (AbstractSkillInteractor.await_invoke (Resolved flagged)
                      start))))) = false.
Proof.
  split; [reflexivity|split; [reflexivity|split; [reflexivity|]]].
  destruct (next_request_after_round_trip (E := helloSkill) launch None
              flagged start eq_refl eq_refl eq_refl) as [_ (_ & H & _)].
  exact H.
Defined.

(** The end of a session that has already ended. *)
Lemma sessionEnded_without_session_witness :
  activeSession startEnded = false
  /\ sessionEndedRequest (Collaborators := helloSkill) startEnded
       USER_INITIATED VUndefined = Ok userQuit
  /\ requiresSession (Collaborators := helloSkill) userQuit = true
  /\ ctx_of
       (AbstractSkillInteractor.sessionEnded (E := helloSkill) USER_INITIATED
          VUndefined None startEnded) = newSession startEnded.
Proof.
  split; [reflexivity|split; [reflexivity|split; [reflexivity|]]].
  destruct (sessionEnded_without_session (E := helloSkill) USER_INITIATED
              VUndefined None startEnded userQuit eq_refl eq_refl eq_refl
              eq_refl)
    as [H _].
  exact H.
Defined.

(** For X12: the first operation of a new interactor. *)
Lemma request_sent_on_callers_context_witness :
  activeSession start = true
  /\ playingNow start = false
  /\ ctx_of
       (AbstractSkillInteractor.perform (E := helloSkill) (Spoken "hello")
          None start) = start.
Proof.
  split; [reflexivity|split; [reflexivity|]].
  destruct (request_sent_on_callers_context (E := helloSkill)
              (Spoken "hello") None start eq_refl eq_refl) as (_ & _ & H & _).
  exact H.
Defined.

(** For C3 (as amended): the end of a session with an error that can be
    logged.  The request is sent in both revisions; the first has terminated
    the session when the promise is returned, the second has not. *)
Lemma sessionEnded_terminates_session_witness :
  diagnostic_fault (E := helloSkill) ERROR (VStr "boom") = None
  /\ sessionEndedRequest (Collaborators := helloSkill) start ERROR
       (VStr "boom") = Ok errorQuit
  /\ awaiting
       (result_of
          (SkillInteractor.sessionEnded (E := helloSkill) ERROR (VStr "boom")
             start)) = true
  /\ activeSession
       (ctx_of
          (SkillInteractor.sessionEnded (E := helloSkill) ERROR (VStr "boom")
             start)) = false
  /\ awaiting
       (result_of
          (AbstractSkillInteractor.sessionEnded (E := helloSkill) ERROR
             (VStr "boom") (Some stamp) start)) = true
  /\ activeSession
       (ctx_of
          (AbstractSkillInteractor.sessionEnded (E := helloSkill) ERROR
             (VStr "boom") (Some stamp) start)) = true.
Proof.
  split; [reflexivity|split; [reflexivity|]].
  destruct (sessionEnded_terminates_session (E := helloSkill) ERROR
              (VStr "boom") (Some stamp) start errorQuit _ _ _ _ _
              eq_refl eq_refl eq_refl eq_refl eq_refl eq_refl eq_refl)
    as [[Hold _] [Hnew _]].
  rewrite Hold, Hnew. repeat split.
Defined.

(** C8.  An error payload that [JSON.stringify] throws on.  With the reason
    ERROR, [sessionEnded] throws the TypeError of the diagnostic before it
    builds anything: no request is built or sent and the context is
    untouched, in both revisions.  With the same payload and the reason
    USER_INITIATED the request is built and sent. *)
Theorem sessionEnded_error_payload_aborts :
  SkillInteractor.sessionEnded (E := helloSkill) ERROR unserializable start =
    (Throw (TypeError "Do not know how to serialize a BigInt"), start, [])
  /\ AbstractSkillInteractor.sessionEnded (E := helloSkill) ERROR
       unserializable None start =
     (Throw (TypeError "Do not know how to serialize a BigInt"), start, [])
  /\ awaiting
       (result_of
          (SkillInteractor.sessionEnded (E := helloSkill) USER_INITIATED
             unserializable start)) = true
  /\ dispatches
       (events_of
          (SkillInteractor.sessionEnded (E := helloSkill) USER_INITIATED
             unserializable start)) = 1
  /\ awaiting
       (result_of
          (AbstractSkillInteractor.sessionEnded (E := helloSkill)
             USER_INITIATED unserializable None start)) = true
  /\ dispatches
       (events_of
          (AbstractSkillInteractor.sessionEnded (E := helloSkill)
             USER_INITIATED unserializable None start)) = 1.
Proof. repeat split; vm_compute; reflexivity. Qed.

(** For X4: a launch while the player is playing sends one request. *)
Lemma one_request_per_operation_witness :
  suspends_player Launched startPlaying = false
  /\ dispatches
       (events_of
          (AbstractSkillInteractor.perform (E := helloSkill) Launched None
             startPlaying)) = 1.
Proof.
  split; [reflexivity|].
  destruct (one_request_per_operation (E := helloSkill) Launched None
              startPlaying eq_refl) as [_ [H _]].
  rewrite H. reflexivity.
Defined.
